(** * Pocket migration scripts: extraction of unread links and import into PSReadThis

    Shallow embedding of
      - [archive/pocket-migration/extract_unread_links.py]  (module [Extractor])
      - [archive/pocket-migration/import_to_psreadthis.py]  (module [Importer])
    together with the fragment of the Python runtime both scripts rely on
    (module [Py]): exceptions, [str] methods, [int()], [datetime].

    Conventions.
      - A Python [str] is a [string]; the character classes are Python's,
        restricted to ASCII.
      - A call that may raise returns a [result]; [try]/[except] is [catch].
      - Network, clock, console and file system are explicit inputs; what a
        function does to the outside world is returned as a chronological
        list of events. *)

From Stdlib Require Import ZArith List String Ascii Bool Lia DecimalString.
Import ListNotations.

Open Scope string_scope.
Open Scope Z_scope.

(* ================================================================== *)
(** ** The Python runtime fragment *)
(* ================================================================== *)

Module Py.

(** Exception classes that occur in the two scripts.  All of them derive
    from [Exception]; [OverflowError] derives from [ArithmeticError] and is
    neither a [ValueError] nor an [OSError]. *)
Inductive exn : Type :=
| ValueError
| OSError
| OverflowError
| IndexError
| KeyError
| TypeError
| StopIteration
| ZeroDivisionError
| CsvError.

Definition exn_eqb (a b : exn) : bool :=
  match a, b with
  | ValueError, ValueError | OSError, OSError | OverflowError, OverflowError
  | IndexError, IndexError | KeyError, KeyError | TypeError, TypeError
  | StopIteration, StopIteration | ZeroDivisionError, ZeroDivisionError
  | CsvError, CsvError => true
  | _, _ => false
  end.

Inductive result (A : Type) : Type :=
| Ok (a : A)
| Raise (e : exn).
Arguments Ok {A} a.
Arguments Raise {A} e.

Definition bind {A B} (m : result A) (k : A -> result B) : result B :=
  match m with
  | Ok a => k a
  | Raise e => Raise e
  end.

(** [try: body except (classes): handler] *)
Definition catch {A} (body : result A) (classes : list exn) (handler : result A)
  : result A :=
  match body with
  | Ok a => Ok a
  | Raise e => if existsb (exn_eqb e) classes then handler else Raise e
  end.


Module Notations.
Notation "x <- m ;; k" := (bind m (fun x => k))
    (at level 61, m at next level, right associativity).
End Notations.
Import Notations.

(** *** [str] *)

Definition code (c : ascii) : nat := nat_of_ascii c.

(** [c.isspace()] for an ASCII character: TAB, LF, VT, FF, CR, the four
    separators FS, GS, RS, US, and SPACE. *)
Definition isspace (c : ascii) : bool :=
  let n := code c in
  ((9 <=? n) && (n <=? 13) || (28 <=? n) && (n <=? 32))%nat.

Definition isdigit_char (c : ascii) : bool :=
  let n := code c in ((48 <=? n) && (n <=? 57))%nat.

Fixpoint forallb_str (p : ascii -> bool) (s : string) : bool :=
  match s with
  | EmptyString => true
  | String c r => p c && forallb_str p r
  end.

(** [s.isdigit()]: at least one character and all of them digits. *)
Definition isdigit (s : string) : bool :=
  match s with
  | EmptyString => false
  | _ => forallb_str isdigit_char s
  end.

(** Truth value of a [str]: non-empty. *)
Definition truthy (s : string) : bool :=
  match s with EmptyString => false | _ => true end.

Fixpoint lstrip (s : string) : string :=
  match s with
  | EmptyString => EmptyString
  | String c r => if isspace c then lstrip r else s
  end.

Fixpoint rstrip (s : string) : string :=
  match s with
  | EmptyString => EmptyString
  | String c r =>
      match rstrip r with
      | EmptyString => if isspace c then EmptyString else String c EmptyString
      | r' => String c r'
      end
  end.

(** [s.strip()] *)
Definition strip (s : string) : string := rstrip (lstrip s).




Definition lower_char (c : ascii) : ascii :=
  let n := code c in
  if ((65 <=? n) && (n <=? 90))%nat then ascii_of_nat (n + 32) else c.

(** [s.lower()] *)
Fixpoint lower (s : string) : string :=
  match s with
  | EmptyString => EmptyString
  | String c r => String (lower_char c) (lower r)
  end.

(** [s[:n]] for [n >= 0] *)
Fixpoint prefix_slice (n : nat) (s : string) : string :=
  match n, s with
  | S n', String c r => String c (prefix_slice n' r)
  | _, _ => EmptyString
  end.

(** [str(n)] for an [int] *)
Definition str_of_int (n : Z) : string := NilZero.string_of_int (Z.to_int n).

(** *** [int()] on digit strings *)

Definition digit_value (c : ascii) : Z := Z.of_nat (code c) - 48.

Fixpoint digits_value (acc : Z) (s : string) : Z :=
  match s with
  | EmptyString => acc
  | String c r => digits_value (10 * acc + digit_value c) r
  end.

(** [sys.int_info.default_max_str_digits] (CPython 3.11 and later). *)
Definition INT_MAX_STR_DIGITS : nat := 4300.

(** [int(s)] for a string [s] of decimal digits, which is what the scripts
    pass (every call is guarded by [isdigit]).  Longer strings than the
    conversion limit are refused with [ValueError]; every character counts,
    leading zeros too. *)
Definition int_of_digits (s : string) : result Z :=
  if (INT_MAX_STR_DIGITS <? String.length s)%nat then Raise ValueError
  else Ok (digits_value 0 s).

(** *** [datetime] *)

Record datetime : Type := mk_datetime {
  year : Z; month : Z; day : Z;
  hour : Z; minute : Z; second : Z;
  microsecond : Z
}.

Definition MINYEAR : Z := 1.
Definition MAXYEAR : Z := 9999.

(** Range of the platform's [time_t] (64-bit) and of C [int]. *)
Definition TIME_T_MIN : Z := - 2 ^ 63.
Definition TIME_T_MAX : Z := 2 ^ 63 - 1.
Definition INT_MAX : Z := 2 ^ 31 - 1.
Definition INT_MIN : Z := - 2 ^ 31.

(** Proleptic Gregorian date of a day number counted from 1970-01-01. *)
Definition civil_from_days (days : Z) : Z * Z * Z :=
  let z := days + 719468 in
  let era := z / 146097 in
  let doe := z - era * 146097 in
  let yoe := (doe - doe / 1460 + doe / 36524 - doe / 146096) / 365 in
  let doy := doe - (365 * yoe + yoe / 4 - yoe / 100) in
  let mp := (5 * doy + 2) / 153 in
  let d := doy - (153 * mp + 2) / 5 + 1 in
  let m := if mp <? 10 then mp + 3 else mp - 9 in
  let y := yoe + era * 400 + (if m <=? 2 then 1 else 0) in
  (y, m, d).

(** Broken-down time of [t] seconds after the epoch, in UTC. *)
Definition gmtime (t : Z) : datetime :=
  let days := t / 86400 in
  let rem := t mod 86400 in
  let '(y, m, d) := civil_from_days days in
  mk_datetime y m d (rem / 3600) (rem mod 3600 / 60) (rem mod 60) 0.

(** Day number of a proleptic Gregorian date, and the instant a broken-down
    UTC time denotes ([calendar.timegm]). *)
Definition days_from_civil (y m d : Z) : Z :=
  let y := y - (if m <=? 2 then 1 else 0) in
  let era := y / 400 in
  let yoe := y - era * 400 in
  let doy := (153 * (if 2 <? m then m - 3 else m + 9) + 2) / 5 + d - 1 in
  let doe := yoe * 365 + yoe / 4 - yoe / 100 + doy in
  era * 146097 + doe - 719468.

Definition timegm (dt : datetime) : Z :=
  days_from_civil (year dt) (month dt) (day dt) * 86400 +
  hour dt * 3600 + minute dt * 60 + second dt.

Section Platform.

(** The host's time zone: seconds east of UTC in force at an instant. *)
Variable utcoffset : Z -> Z.

(** C [localtime_r]: fails ([EOVERFLOW]) when the year does not fit
    [tm_year], an [int] counted from 1900. *)
Definition localtime (t : Z) : option datetime :=
  let tm := gmtime (t + utcoffset t) in
  if (INT_MIN <=? year tm - 1900) && (year tm - 1900 <=? INT_MAX)
  then Some tm else None.

(** [datetime.fromtimestamp(n)] for an [int] [n], no [tz] argument: the
    naive local time.
      - [OverflowError] when [n] is outside [time_t];
      - [OSError] when [localtime] fails;
      - [ValueError] when the year is outside [MINYEAR..MAXYEAR]. *)
Definition fromtimestamp (n : Z) : result datetime :=
  if (n <? TIME_T_MIN) || (TIME_T_MAX <? n) then Raise OverflowError
  else match localtime n with
       | None => Raise OSError
       | Some tm =>
           if (year tm <? MINYEAR) || (MAXYEAR <? year tm)
           then Raise ValueError
           else Ok tm
       end.

End Platform.

Definition digit_char (d : Z) : ascii := ascii_of_nat (48 + Z.to_nat d).

(** [w] decimal digits of [n], most significant first (["%0wd"] for
    [0 <= n < 10^w]). *)
Fixpoint zero_padded (w : nat) (n : Z) (acc : string) : string :=
  match w with
  | O => acc
  | S w' => zero_padded w' (n / 10) (String (digit_char (n mod 10)) acc)
  end.

(** [dt.isoformat()] of a naive [datetime]: [YYYY-MM-DDTHH:MM:SS], followed
    by [.ffffff] when the microsecond is not zero. *)
Definition isoformat (dt : datetime) : string :=
  zero_padded 4 (year dt) "" ++ "-" ++ zero_padded 2 (month dt) "" ++ "-" ++
  zero_padded 2 (day dt) "" ++ "T" ++ zero_padded 2 (hour dt) "" ++ ":" ++
  zero_padded 2 (minute dt) "" ++ ":" ++ zero_padded 2 (second dt) "" ++
  (if microsecond dt =? 0 then "" else "." ++ zero_padded 6 (microsecond dt) "").

End Py.

Import Py.Notations.

(* ================================================================== *)
(** ** Delimited-text files *)
(* ================================================================== *)

(** A csv file is modelled at the level of rows: what [csv.reader] yields
    when the file is read from its start, and what [csv.writer.writerow]
    is given when it is written.  Reading is lazy and may fail part-way
    ([csv.Error], an I/O error), so a file being read is a list of rows
    closed by end-of-file or by the exception raised at that point. *)
Module Csv.

Definition row : Type := list string.

Inductive stream : Type :=
| Eof
| Fail (e : Py.exn)
| Row (r : row) (rest : stream).

(** The file that holds exactly the given rows. *)
Definition of_rows (rows : list row) : stream := fold_right Row Eof rows.

Fixpoint rows_of (s : stream) : list row :=
  match s with
  | Row r rest => r :: rows_of rest
  | _ => []
  end.

Fixpoint failure_of (s : stream) : option Py.exn :=
  match s with
  | Eof => None
  | Fail e => Some e
  | Row _ rest => failure_of rest
  end.

End Csv.

(* ================================================================== *)
(** ** [import_to_psreadthis.py] *)
(* ================================================================== *)

Module Importer.

Definition USER_ID : string := "3ad801b9-b41d-4cca-a5ba-2065a1d6ce97".

(** *** Rows of the normalized file, as [csv.DictReader] yields them *)

(** A row is a [dict] from column name to the cell, or to [None] for a
    column the row is too short to fill ([restval]).  Cells the header has
    no name for go under the key [None] ([restkey]); the importer never
    reads that entry and it is left out. *)
Definition dict : Type := list (string * option string).

Fixpoint dict_set (k : string) (v : option string) (d : dict) : dict :=
  match d with
  | [] => [(k, v)]
  | (k', v') :: d' =>
      if String.eqb k k' then (k, v) :: d' else (k', v') :: dict_set k v d'
  end.

(** [d[k]] *)
Fixpoint dict_get (k : string) (d : dict) : Py.result (option string) :=
  match d with
  | [] => Py.Raise Py.KeyError
  | (k', v) :: d' => if String.eqb k k' then Py.Ok v else dict_get k d'
  end.

(** [dict(zip(fieldnames, row))], then [restval] for the missing columns. *)
Fixpoint make_dict (fieldnames : list string) (row : Csv.row) (d : dict) : dict :=
  match fieldnames, row with
  | k :: ks, v :: vs => make_dict ks vs (dict_set k (Some v) d)
  | k :: ks, [] => make_dict ks [] (dict_set k None d)
  | [], _ => d
  end.

Definition value_eqb (v : option string) (s : string) : bool :=
  match v with
  | Some x => String.eqb x s
  | None => false
  end.

(** The [for row in reader] loop of [load_pocket_csv]; [DictReader] skips
    rows without cells. *)
Fixpoint load_rows (fieldnames : list string) (s : Csv.stream) (links : list dict)
  : Py.result (list dict) :=
  match s with
  | Csv.Eof => Py.Ok links
  | Csv.Fail e => Py.Raise e
  | Csv.Row [] rest => load_rows fieldnames rest links
  | Csv.Row r rest =>
      let row := make_dict fieldnames r [] in
      status <- dict_get "status" row ;;
      if value_eqb status "unread"
      then load_rows fieldnames rest (links ++ [row])%list
      else load_rows fieldnames rest links
  end.

(** [load_pocket_csv]: [file] is what [open(filename)] gives, the file's
    rows or the exception [open] raises.  The first row read names the
    columns.  Any exception empties the result. *)
Definition load_pocket_csv (file : Py.result Csv.stream) : list dict :=
  let body :=
    f <- file ;;
    match f with
    | Csv.Eof => Py.Ok []
    | Csv.Fail e => Py.Raise e
    | Csv.Row fieldnames rest => load_rows fieldnames rest []
    end in
  match body with
  | Py.Ok links => links
  | Py.Raise _ => []
  end.

(** *** Timestamps *)

Section Host.

Variable utcoffset : Z -> Z.

(** [unix_to_iso]; [now] is what [datetime.now()] reads when the fallback
    is taken. *)
Definition unix_to_iso (now : Py.datetime) (unix_timestamp : string)
  : Py.result string :=
  let attempt : Py.result (option string) :=
    Py.catch
      (if Py.truthy unix_timestamp && Py.isdigit unix_timestamp then
         n <- Py.int_of_digits unix_timestamp ;;
         dt <- Py.fromtimestamp utcoffset n ;;
         Py.Ok (Some (Py.isoformat dt ++ "+00:00"))
       else Py.Ok None)
      [Py.ValueError; Py.OSError]
      (Py.Ok None) in
  returned <- attempt ;;
  match returned with
  | Some iso => Py.Ok iso
  | None => Py.Ok (Py.isoformat now ++ "+00:00")
  end.

(** *** Records sent to the remote store *)

Record Link : Type := mk_Link {
  id : string;
  user_id : string;
  raw_url : option string;
  resolved_url : option string;
  title : option string;
  list_ : string;
  status : string;
  device_saved : string;
  created_at : string
}.

(** [prepare_link_data]; [link_id] is the fresh [uuid4].  A [None] cell is
    falsy like the empty string, for the title and for the timestamp. *)
Definition prepare_link_data (link_id : string) (now : Py.datetime)
           (pocket_link : dict) : Py.result Link :=
  url <- dict_get "url" pocket_link ;;
  title_cell <- dict_get "title" pocket_link ;;
  time_added <- dict_get "time_added" pocket_link ;;
  created <- unix_to_iso now (match time_added with Some s => s | None => "" end) ;;
  Py.Ok {| id := link_id;
           user_id := USER_ID;
           raw_url := url;
           resolved_url := None;
           title := match title_cell with
                    | Some s => if Py.truthy s then Some s else None
                    | None => None
                    end;
           list_ := "read";
           status := "unread";
           device_saved := "import_script";
           created_at := created |}.

(** *** The remote store *)

Inductive Response : Type :=
| Status (status_code : Z) (text : string)   (* an HTTP response *)
| Raised (message : string).                (* the request raised; [str(e)] *)

(** Where in the script a POST is issued. *)
Inductive Site : Type := BatchPost | IndividualPost.

Inductive Event : Type :=
| Get (resp : Response)
| Post (site : Site) (body : list Link) (resp : Response)
| Sleep (milliseconds : Z).

Definition Trace : Type := list Event.

(** The remote store answers a POST of a JSON array, possibly depending
    on everything that happened before. *)
Definition Remote : Type := Trace -> list Link -> Response.

(** [status_code in [200, 201]] *)
Definition accepted (status_code : Z) : bool :=
  (status_code =? 200) || (status_code =? 201).

Record Results : Type := mk_Results {
  success : Z;
  failed : Z;
  errors : list string
}.

Definition no_results : Results := mk_Results 0 0 [].

(** [f"{v}"] of a cell *)
Definition format_value (v : option string) : string :=
  match v with Some s => s | None => "None" end.

Section Session.

Variable remote : Remote.

(** Body of the loop of [individual_insert] for the [i]-th link.  The
    progress line printed after an accepted request slices
    [link['raw_url']]; on [None] that raises [TypeError] inside the
    [try], after the success was counted. *)
Definition individual_step (acc : Results * Trace) (i : Z) (link : Link)
  : Results * Trace :=
  let '(results, tr) := acc in
  let resp := remote tr [link] in
  let tr := (tr ++ [Post IndividualPost [link] resp])%list in
  match resp with
  | Status status_code _ =>
      if accepted status_code then
        let results := mk_Results (success results + 1) (failed results)
                                  (errors results) in
        match raw_url link with
        | Some _ => (results, (tr ++ [Sleep 200])%list)
        | None =>
            let error_msg :=
              "Individual " ++ Py.str_of_int i ++ " exception: " ++
              "'NoneType' object is not subscriptable" ++ " - " ++
              format_value (raw_url link) in
            (mk_Results (success results) (failed results + 1)
                        ((errors results ++ [error_msg])%list), tr)
        end
      else
        let error_msg :=
          "Individual " ++ Py.str_of_int i ++ " failed: " ++
          Py.str_of_int status_code ++ " - " ++ format_value (raw_url link) in
        (mk_Results (success results) (failed results + 1)
                    ((errors results ++ [error_msg])%list), (tr ++ [Sleep 200])%list)
  | Raised message =>
      let error_msg :=
        "Individual " ++ Py.str_of_int i ++ " exception: " ++ message ++
        " - " ++ format_value (raw_url link) in
      (mk_Results (success results) (failed results + 1)
                  ((errors results ++ [error_msg])%list), tr)
  end.

(** [for i, link in enumerate(links, i): ...] *)
Fixpoint individual_loop (i : Z) (links : list Link) (acc : Results * Trace)
  : Results * Trace :=
  match links with
  | [] => acc
  | link :: rest => individual_loop (i + 1) rest (individual_step acc i link)
  end.

Definition individual_insert (tr : Trace) (links : list Link)
  : Results * Trace :=
  individual_loop 1 links (no_results, tr).

(** [links[lo:hi]] for [0 <= lo <= hi] *)
Definition slice (links : list Link) (lo hi : Z) : list Link :=
  firstn (Z.to_nat (hi - lo)) (skipn (Z.to_nat lo) links).

Definition len {A} (l : list A) : Z := Z.of_nat (List.length l).

(** [range(start, stop, step)] *)
Definition range (start stop step : Z) : Py.result (list Z) :=
  if step =? 0 then Py.Raise Py.ValueError
  else
    let count := if 0 <? step then (stop - start + step - 1) / step
                 else (start - stop - step - 1) / (- step) in
    Py.Ok (map (fun k => start + Z.of_nat k * step) (seq 0 (Z.to_nat count))).

(** Body of the loop of [batch_insert] for the group that starts at
    index [i]. *)
Definition batch_step (links : list Link) (batch_size : Z)
           (acc : Results * Trace) (i : Z) : Results * Trace :=
  let '(results, tr) := acc in
  let batch := slice links i (i + batch_size) in
  let batch_num := i / batch_size + 1 in
  let resp := remote tr batch in
  let tr := (tr ++ [Post BatchPost batch resp])%list in
  match resp with
  | Status status_code text =>
      if accepted status_code then
        (mk_Results (success results + len batch) (failed results)
                    (errors results), (tr ++ [Sleep 500])%list)
      else
        let error_msg :=
          "Batch " ++ Py.str_of_int batch_num ++ " failed: " ++
          Py.str_of_int status_code ++ " - " ++ text in
        let results := mk_Results (success results)
                                  (failed results + len batch)
                                  ((errors results ++ [error_msg])%list) in
        let '(individual_results, tr) := individual_insert tr batch in
        (mk_Results (success results + success individual_results)
                    (failed results - success individual_results)
                    (errors results ++ errors individual_results)%list,
         (tr ++ [Sleep 500])%list)
  | Raised message =>
      let error_msg :=
        "Batch " ++ Py.str_of_int batch_num ++ " exception: " ++ message in
      (mk_Results (success results) (failed results + len batch)
                  ((errors results ++ [error_msg])%list), (tr ++ [Sleep 500])%list)
  end.

(** [batch_insert]; computing [total_batches] divides by [batch_size]. *)
Definition batch_insert (tr : Trace) (links : list Link) (batch_size : Z)
  : Py.result (Results * Trace) :=
  if batch_size =? 0 then Py.Raise Py.ZeroDivisionError
  else
    starts <- range 0 (len links) batch_size ;;
    Py.Ok (fold_left (batch_step links batch_size) starts (no_results, tr)).

End Session.

(** *** The run *)

(** [test_connection] on the answer to the probe. *)
Definition test_connection (probe : Response) : bool :=
  match probe with
  | Status status_code _ => status_code =? 200
  | Raised _ => false
  end.

(** [psreadthis_links = [self.prepare_link_data(link) for link in pocket_links]];
    the [k]-th record gets the [k]-th identifier and clock reading. *)
Fixpoint prepare_all (uuid4 : nat -> string) (clock : nat -> Py.datetime)
         (k : nat) (pocket_links : list dict) : Py.result (list Link) :=
  match pocket_links with
  | [] => Py.Ok []
  | link :: rest =>
      l <- prepare_link_data (uuid4 k) (clock k) link ;;
      ls <- prepare_all uuid4 clock (S k) rest ;;
      Py.Ok (l :: ls)
  end.

Definition is_str (k : string) (d : dict) : bool :=
  match dict_get k d with
  | Py.Ok (Some _) => true
  | _ => false
  end.

(** [show_sample_data] prints the first three rows; slicing a [None]
    title or URL raises [TypeError]. *)
Definition show_sample_data (pocket_links : list dict) : Py.result unit :=
  if forallb (fun d => is_str "title" d && is_str "url" d) (firstn 3 pocket_links)
  then Py.Ok tt else Py.Raise Py.TypeError.

(** Everything a run of [import_links] takes from outside. *)
Record World : Type := mk_World {
  probe : Response;               (* answer to the GET of [test_connection] *)
  csv_file : Py.result Csv.stream; (* [open("pocket_unread_links.csv")] *)
  uuid4 : nat -> string;
  clock : nat -> Py.datetime;
  user_input : string;            (* the line [input()] returns *)
  remote : Remote
}.

Inductive Outcome : Type :=
| NoConnection
| NoLinks
| Cancelled
| Imported (results : Results).

(** [import_links]: how the run ends and what it did on the network.  The
    console output is not part of the model, only whether producing it
    raises. *)
Definition import_links (w : World) : Py.result Outcome * Trace :=
  let tr := [Get (probe w)] in
  if negb (test_connection (probe w)) then (Py.Ok NoConnection, tr)
  else
    let pocket_links := load_pocket_csv (csv_file w) in
    match pocket_links with
    | [] => (Py.Ok NoLinks, tr)
    | _ =>
        match prepare_all (uuid4 w) (clock w) 0 pocket_links with
        | Py.Raise e => (Py.Raise e, tr)
        | Py.Ok psreadthis_links =>
            match show_sample_data pocket_links with
            | Py.Raise e => (Py.Raise e, tr)
            | Py.Ok _ =>
                let answer := Py.lower (Py.strip (user_input w)) in
                if negb (String.eqb answer "y") then (Py.Ok Cancelled, tr)
                else
                  match batch_insert (remote w) tr psreadthis_links 50 with
                  | Py.Raise e => (Py.Raise e, tr)
                  | Py.Ok (results, tr) => (Py.Ok (Imported results), tr)
                  end
            end
        end
    end.

End Host.

End Importer.

(* ================================================================== *)
(** ** [extract_unread_links.py] *)
(* ================================================================== *)

Module Extractor.

Definition pocket_dir : string := "pocket".
Definition csv_files : list string := ["part_000000.csv"; "part_000001.csv"].
Definition output_file : string := "pocket_unread_links.csv".

(** [os.path.join(pocket_dir, csv_file)] *)
Definition path_join (dir name : string) : string := dir ++ "/" ++ name.

(** An entry of [unread_links]. *)
Record UnreadLink : Type := mk_UnreadLink {
  title : string;
  url : string;
  time_added : string;
  tags : string;
  status : string;
  source_file : string
}.

(** Lines the script prints (rulers and blank lines left out). *)
Inductive Message : Type :=
| NotFound (file_path : string)
| Processing (csv_file : string)
| HeaderFound (header : Csv.row)
| RowWarning (row_num : Z) (columns : Z) (row : Csv.row)
| ErrorProcessing (csv_file : string) (e : Py.exn)
| FoundInFile (file_unread : Z) (csv_file : string)
| TotalFound (total_unread : Z)
| SavedTo (file : string)
| Sample (i : Z) (link : UnreadLink) (timestamp : option Py.datetime)
| NoUnreadLinks.

(** The source directory: for a path, [None] when nothing exists there,
    else what [open] gives. *)
Definition Directory : Type := string -> option (Py.result Csv.stream).

Definition len {A} (l : list A) : Z := Z.of_nat (List.length l).

(** The variables the row loop updates. *)
Record Scan : Type := mk_Scan {
  unread_links : list UnreadLink;
  file_unread : Z;
  console : list Message
}.

(** Body of [for row_num, row in enumerate(reader, 1)]. *)
Definition row_step (csv_file : string) (st : Scan) (row_num : Z) (row : Csv.row)
  : Scan :=
  match row with
  | title :: url :: time_added :: tags :: status :: _ =>   (* len(row) >= 5 *)
      if String.eqb (Py.strip status) "unread" then
        mk_Scan (unread_links st ++
                   [mk_UnreadLink (Py.strip title) (Py.strip url)
                                  (Py.strip time_added) (Py.strip tags)
                                  (Py.strip status) csv_file])%list
                (file_unread st + 1)
                (console st)
      else st
  | _ =>
      if (len row =? 1) && String.eqb (Py.strip (nth 0 row "")) "unread" then
        st                                                  (* continue *)
      else if (len row <? 5) && (0 <? len row) then
        if row_num <=? 10 then
          mk_Scan (unread_links st) (file_unread st)
                  (console st ++ [RowWarning row_num (len row) row])%list
        else st
      else st
  end.

(** The row loop on what is left of the file; the exception that stops it,
    if any, comes with the variables as they are at that point. *)
Fixpoint scan_rows (csv_file : string) (row_num : Z) (rows : Csv.stream) (st : Scan)
  : Scan * option Py.exn :=
  match rows with
  | Csv.Eof => (st, None)
  | Csv.Fail e => (st, Some e)
  | Csv.Row row rest =>
      scan_rows csv_file (row_num + 1) rest (row_step csv_file st row_num row)
  end.

(** The variables of the loop over the source files. *)
Record State : Type := mk_State {
  all_unread_links : list UnreadLink;   (* [unread_links] *)
  total_unread : Z;
  printed : list Message
}.

(** Body of [for csv_file in csv_files]. *)
Definition file_step (dir : Directory) (st : State) (csv_file : string) : State :=
  let file_path := path_join pocket_dir csv_file in
  match dir file_path with
  | None =>
      mk_State (all_unread_links st) (total_unread st)
               (printed st ++ [NotFound file_path])%list
  | Some opened =>
      let out := (printed st ++ [Processing csv_file])%list in
      let on_error (links : list UnreadLink) (out : list Message) (e : Py.exn) :=
        mk_State links (total_unread st) (out ++ [ErrorProcessing csv_file e])%list in
      match opened with
      | Py.Raise e => on_error (all_unread_links st) out e
      | Py.Ok f =>
          match f with
          | Csv.Eof =>                                   (* StopIteration: continue *)
              mk_State (all_unread_links st) (total_unread st) out
          | Csv.Fail e => on_error (all_unread_links st) out e
          | Csv.Row [] _ =>                              (* header[0] *)
              on_error (all_unread_links st) out Py.IndexError
          | Csv.Row (first :: more) rest =>
              let header := first :: more in
              let '(data, out) :=
                if String.eqb first "title"
                then (rest, (out ++ [HeaderFound header])%list)
                else (f, out)                            (* f.seek(0) *) in
              match scan_rows csv_file 1 data
                              (mk_Scan (all_unread_links st) 0 out) with
              | (scan, Some e) => on_error (unread_links scan) (console scan) e
              | (scan, None) =>
                  mk_State (unread_links scan)
                           (total_unread st + file_unread scan)
                           (console scan ++
                              [FoundInFile (file_unread scan) csv_file])%list
              end
          end
      end
  end.

Definition header_row : Csv.row :=
  ["title"; "url"; "time_added"; "tags"; "status"; "source_file"].

Definition output_row (link : UnreadLink) : Csv.row :=
  [title link; url link; time_added link; tags link; status link;
   source_file link].

Section Host.

Variable utcoffset : Z -> Z.

(** The preview of the first entries converts the timestamp without a
    [try]. *)
Fixpoint show_samples (i : Z) (links : list UnreadLink) (out : list Message)
  : list Message * option Py.exn :=
  match links with
  | [] => (out, None)
  | link :: rest =>
      let timestamp :=
        if Py.isdigit (time_added link) then
          n <- Py.int_of_digits (time_added link) ;;
          dt <- Py.fromtimestamp utcoffset n ;;
          Py.Ok (Some dt)
        else Py.Ok None in
      match timestamp with
      | Py.Raise e => (out, Some e)
      | Py.Ok t => show_samples (i + 1) rest (out ++ [Sample (i + 1) link t])%list
      end
  end.

(** What a run leaves behind. *)
Record Run : Type := mk_Run {
  returned : Py.result Z;                 (* [total_unread], or the exception *)
  written : option (list Csv.row);        (* rows written to [output_file] *)
  output : list Message
}.

Definition extract_unread_links (dir : Directory) : Run :=
  let st := fold_left (file_step dir) csv_files (mk_State [] 0 []) in
  let out := (printed st ++ [TotalFound (total_unread st)])%list in
  match all_unread_links st with
  | [] => mk_Run (Py.Ok (total_unread st)) None (out ++ [NoUnreadLinks])%list
  | links =>
      let rows := header_row :: map output_row links in
      let out := (out ++ [SavedTo output_file])%list in
      match show_samples 0 (firstn 5 links) out with
      | (out, Some e) => mk_Run (Py.Raise e) (Some rows) out
      | (out, None) => mk_Run (Py.Ok (total_unread st)) (Some rows) out
      end
  end.

End Host.

End Extractor.

(* ================================================================== *)
(** ** Vocabulary of the properties *)
(* ================================================================== *)

(** The last second [datetime] can hold: 9999-12-31T23:59:59 UTC. *)
Definition LAST_SECOND : Z := 253402300799.

(** The host keeps UTC. *)
Definition utc_host : Z -> Z := fun _ => 0.



Definition noon_2025_06_01 : Py.datetime := Py.mk_datetime 2025 6 1 12 0 0 0.

(** The test a data row has to pass, and the record kept for it, as the
    specification words them. *)
Definition retained (row : Csv.row) : bool :=
  (5 <=? List.length row)%nat && String.eqb (Py.strip (nth 4 row "")) "unread".

Definition record_of (csv_file : string) (row : Csv.row) : Extractor.UnreadLink :=
  Extractor.mk_UnreadLink
    (Py.strip (nth 0 row "")) (Py.strip (nth 1 row "")) (Py.strip (nth 2 row ""))
    (Py.strip (nth 3 row "")) (Py.strip (nth 4 row "")) csv_file.



(** The rows the printed warnings are about. *)
Definition warned_rows (out : list Extractor.Message) : list Csv.row :=
  flat_map (fun m => match m with
                     | Extractor.RowWarning _ _ row => [row]
                     | _ => []
                     end) out.




(** The data rows the script gets to see of a source file: everything read
    before a failure, less the header. *)
Definition data_rows (dir : Extractor.Directory) (csv_file : string) : list Csv.row :=
  match dir (Extractor.path_join Extractor.pocket_dir csv_file) with
  | Some (Py.Ok (Csv.Row (first :: more) rest)) =>
      if String.eqb first "title" then Csv.rows_of rest
      else (first :: more) :: Csv.rows_of rest
  | _ => []
  end.

(** Reading the source file ends in an exception. *)
Definition read_fails (dir : Extractor.Directory) (csv_file : string) : bool :=
  match dir (Extractor.path_join Extractor.pocket_dir csv_file) with
  | Some (Py.Raise _) => true
  | Some (Py.Ok (Csv.Row [] _)) => true
  | Some (Py.Ok f) => match Csv.failure_of f with Some _ => true | None => false end
  | None => false
  end.

(** The records a run retains, file by file. *)
Definition retained_records (dir : Extractor.Directory) : list Extractor.UnreadLink :=
  flat_map (fun csv_file =>
              map (record_of csv_file) (filter retained (data_rows dir csv_file)))
           Extractor.csv_files.

(** Source directories of the examples. *)
Definition row_A : Csv.row := ["A"; "http://x"; "100"; ""; "unread"].
Definition row_B : Csv.row := ["B"; "http://y"; "not-a-number"; ""; "unread"].
Definition row_C : Csv.row := ["C"; "http://z"; "200"; ""; "read"].
Definition source_header : Csv.row := ["title"; "url"; "time_added"; "tags"; "status"].

Definition directory_of (first second : option (Py.result Csv.stream))
  : Extractor.Directory :=
  fun path =>
    if String.eqb path "pocket/part_000000.csv" then first
    else if String.eqb path "pocket/part_000001.csv" then second
    else None.


Definition scenario_directory : Extractor.Directory :=
  directory_of (Some (Py.Ok (Csv.of_rows [source_header; row_A; row_B; row_C]))) None.

(** The first file breaks off after one unread row; the second is sound. *)
Definition interrupted_directory : Extractor.Directory :=
  directory_of
    (Some (Py.Ok (Csv.Row source_header (Csv.Row row_A (Csv.Fail Py.CsvError)))))
    (Some (Py.Ok (Csv.of_rows [source_header; row_B]))).

(** A single file that breaks off after one unread row. *)
Definition truncated_directory : Extractor.Directory :=
  directory_of
    (Some (Py.Ok (Csv.Row source_header (Csv.Row row_A (Csv.Fail Py.CsvError)))))
    None.

(** What the importer's loader makes of the file a run wrote: the record
    count, or zero when nothing was written and nothing is there to open. *)
Definition reloaded_count (written : option (list Csv.row)) : Z :=
  match written with
  | Some rows =>
      Z.of_nat (List.length (Importer.load_pocket_csv (Py.Ok (Csv.of_rows rows))))
  | None => 0
  end.

(** The dictionary the loader builds for a row of the normalized file. *)
Definition reloaded (link : Extractor.UnreadLink) : Importer.dict :=
  Importer.make_dict Extractor.header_row (Extractor.output_row link) [].

(** *** The importer *)



(** Start indices of the groups, for a positive [batch_size]. *)
Definition group_starts (n batch_size : Z) : list Z :=
  map (fun k => 0 + Z.of_nat k * batch_size)
      (seq 0 (Z.to_nat ((n - 0 + batch_size - 1) / batch_size))).

(** The groups [batch_insert] forms. *)
Definition groups (links : list Importer.Link) (batch_size : Z)
  : list (list Importer.Link) :=
  map (fun i => Importer.slice links i (i + batch_size))
      (group_starts (Importer.len links) batch_size).

(** The POSTs of a trace, in order: where each was issued and what it sent. *)
Definition requests (tr : Importer.Trace)
  : list (Importer.Site * list Importer.Link) :=
  flat_map (fun e => match e with
                     | Importer.Post site body _ => [(site, body)]
                     | _ => []
                     end) tr.

(** One individual request per record of the group, in order. *)
Definition escalation (batch : list Importer.Link)
  : list (Importer.Site * list Importer.Link) :=
  map (fun link => (Importer.IndividualPost, [link])) batch.

(** The request came back with 200 or 201. *)
Definition succeeded (resp : Importer.Response) : bool :=
  match resp with
  | Importer.Status status_code _ => Importer.accepted status_code
  | Importer.Raised _ => false
  end.

(** The request came back with a failure response. *)
Definition rejected (resp : Importer.Response) : bool :=
  match resp with
  | Importer.Status status_code _ => negb (Importer.accepted status_code)
  | Importer.Raised _ => false
  end.

Definition tally (weight : Importer.Event -> Z) (tr : Importer.Trace) : Z :=
  fold_right (fun e acc => weight e + acc) 0 tr.

(** Individual requests that did not succeed. *)
Definition individual_failures : Importer.Trace -> Z :=
  tally (fun e => match e with
                  | Importer.Post Importer.IndividualPost _ resp =>
                      if succeeded resp then 0 else 1
                  | _ => 0
                  end).

(** Batched requests that did not succeed. *)
Definition failed_batches : Importer.Trace -> Z :=
  tally (fun e => match e with
                  | Importer.Post Importer.BatchPost _ resp =>
                      if succeeded resp then 0 else 1
                  | _ => 0
                  end).

(** Records of the groups whose batched request raised. *)
Definition records_of_raised_batches : Importer.Trace -> Z :=
  tally (fun e => match e with
                  | Importer.Post Importer.BatchPost body (Importer.Raised _) =>
                      Importer.len body
                  | _ => 0
                  end).

Definition has_url (link : Importer.Link) : bool :=
  match Importer.raw_url link with
  | Some _ => true
  | None => false
  end.

(** The requests of a run over the given groups: for each group its batched
    request, followed or not by the escalation of that group. *)
Inductive run_shape
  : list (list Importer.Link) -> list (Importer.Site * list Importer.Link) -> Prop :=
| shape_done : run_shape [] []
| shape_plain (batch : list Importer.Link) rest reqs :
    run_shape rest reqs ->
    run_shape (batch :: rest) ((Importer.BatchPost, batch) :: reqs)
| shape_escalated (batch : list Importer.Link) rest reqs :
    run_shape rest reqs ->
    run_shape (batch :: rest)
              ((Importer.BatchPost, batch) :: escalation batch ++ reqs)%list.

(** What the loop of [individual_insert] does over [links], from the
    counters and trace [before] to [after]: one request per record; with
    every URL present, each record is counted once, as a success or as a
    failure with its own entry in the error list. *)
Definition individual_effect (links : list Importer.Link)
           (before after : Importer.Results * Importer.Trace) : Prop :=
  exists events,
    snd after = (snd before ++ events)%list /\
    requests events = escalation links /\
    failed_batches events = 0 /\
    records_of_raised_batches events = 0 /\
    0 <= individual_failures events <= Importer.len links /\
    (forallb has_url links = true ->
     Importer.success (fst after) =
       Importer.success (fst before) + Importer.len links
       - individual_failures events /\
     Importer.failed (fst after) =
       Importer.failed (fst before) + individual_failures events /\
     Importer.len (Importer.errors (fst after)) =
       Importer.len (Importer.errors (fst before)) + individual_failures events).

(** What one pass of the loop of [batch_insert] does for the group [batch]
    whose batched request is answered by [resp]: the batched request, then
    the escalation if and only if the answer is a failure response; with
    every URL present, the records of the group are each counted once. *)
Definition group_effect (batch : list Importer.Link) (resp : Importer.Response)
           (before after : Importer.Results * Importer.Trace) : Prop :=
  exists events,
    let sent := Importer.Post Importer.BatchPost batch resp :: events in
    snd after = (snd before ++ sent)%list /\
    requests events = (if rejected resp then escalation batch else []) /\
    (forallb has_url batch = true ->
     Importer.success (fst after) + Importer.failed (fst after) =
       Importer.success (fst before) + Importer.failed (fst before)
       + Importer.len batch /\
     Importer.failed (fst after) =
       Importer.failed (fst before) + individual_failures sent
       + records_of_raised_batches sent /\
     Importer.len (Importer.errors (fst after)) =
       Importer.len (Importer.errors (fst before)) + failed_batches sent
       + individual_failures sent).

(** The state of a run of [batch_insert] after [k] groups. *)
Definition run_invariant (links : list Importer.Link) (batch_size : Z)
           (tr : Importer.Trace) (k : nat)
           (acc : Importer.Results * Importer.Trace) : Prop :=
  exists events,
    snd acc = (tr ++ events)%list /\
    run_shape (map (fun j => Importer.slice links (0 + Z.of_nat j * batch_size)
                                            (0 + Z.of_nat j * batch_size + batch_size))
                   (seq 0 k))
              (requests events) /\
    (forallb has_url links = true ->
     Importer.success (fst acc) + Importer.failed (fst acc) =
       Z.min (Z.of_nat k * batch_size) (Importer.len links) /\
     Importer.failed (fst acc) =
       individual_failures events + records_of_raised_batches events /\
     Importer.len (Importer.errors (fst acc)) =
       failed_batches events + individual_failures events).

(** Records and stores of the examples. *)
Definition link_a : Importer.Link :=
  Importer.mk_Link "id-0" Importer.USER_ID (Some "http://x") None (Some "A")
                   "read" "unread" "import_script" "1970-01-01T00:01:40+00:00".
Definition link_b : Importer.Link :=
  Importer.mk_Link "id-1" Importer.USER_ID (Some "http://y") None (Some "B")
                   "read" "unread" "import_script" "2025-06-01T12:00:00+00:00".
Definition link_c : Importer.Link :=
  Importer.mk_Link "id-2" Importer.USER_ID (Some "http://z") None None
                   "read" "unread" "import_script" "1970-01-01T00:03:20+00:00".

(** Every request raises. *)
Definition unreachable : Importer.Remote :=
  fun _ _ => Importer.Raised "Connection refused".

(** Requests of several records get 500; of single records 201, but 400
    for [http://y]. *)
Definition picky : Importer.Remote :=
  fun _ body =>
    match body with
    | [link] =>
        if Importer.value_eqb (Importer.raw_url link) "http://y"
        then Importer.Status 400 "" else Importer.Status 201 ""
    | _ => Importer.Status 500 "Internal Server Error"
    end.

(** A world for the examples: the store answers every request with 201, the
    normalized file holds two rows, and the operator types [answer]. *)
Definition accepting : Importer.Remote := fun _ _ => Importer.Status 201 "".

Definition example_world (answer : string) : Importer.World :=
  Importer.mk_World
    (Importer.Status 200 "[]")
    (Py.Ok (Csv.of_rows [Extractor.header_row;
                         ["A"; "http://x"; "100"; ""; "unread"; "part_000000.csv"];
                         ["B"; "http://y"; "not-a-number"; ""; "unread";
                          "part_000000.csv"]]))
    (fun k => "id-" ++ Py.str_of_int (Z.of_nat k))
    (fun _ => noon_2025_06_01)
    answer
    accepting.

(** *** The rest of the two scripts *)

(** The report [import_links] prints once the batch send is over, line by
    line (lines 218-234), without its headings and its closing hint.  The
    success-rate line is a floating-point figure and is left out as well. *)
Module Report.

Inductive Line : Type :=
| SuccessfullyImported (n : Z)
| FailedImports (n : Z)
| ErrorSummary (count : Z)
| ErrorLine (message : string)
| MoreErrors (count : Z)
| ImportCompleted (n : Z).

Definition error_lines (errors : list string) : list Line :=
  match errors with
  | [] => []
  | _ =>
      ErrorSummary (Importer.len errors) ::
      (map ErrorLine (firstn 10 errors) ++
       (if 10 <? Importer.len errors
        then [MoreErrors (Importer.len errors - 10)] else []))%list
  end.

Definition report (results : Importer.Results) : list Line :=
  ([SuccessfullyImported (Importer.success results);
    FailedImports (Importer.failed results)] ++
   error_lines (Importer.errors results) ++
   (if 0 <? Importer.success results
    then [ImportCompleted (Importer.success results)] else []))%list.

(** The entries the report shows, and the count it gives for the rest. *)
Definition shown (lines : list Line) : list string :=
  flat_map (fun l => match l with ErrorLine m => [m] | _ => [] end) lines.

Definition remainder (lines : list Line) : Z :=
  fold_right (fun l acc => match l with MoreErrors n => n + acc | _ => acc end)
             0 lines.

End Report.

(** A digit string [int()] accepts whose value is beyond [time_t]. *)
Definition beyond_time_t (s : string) : bool :=
  Py.isdigit s && (String.length s <=? Py.INT_MAX_STR_DIGITS)%nat &&
  (Py.TIME_T_MAX <? Py.digits_value 0 s).

(** The cell of a column, [None] also when the column is missing. *)
Definition cell (k : string) (d : Importer.dict) : option string :=
  match Importer.dict_get k d with
  | Py.Ok v => v
  | Py.Raise _ => None
  end.

Definition has_key (k : string) (d : Importer.dict) : bool :=
  existsb (fun kv => String.eqb k (fst kv)) d.

Definition is_unread (link : Extractor.UnreadLink) : bool :=
  String.eqb (Extractor.status link) "unread".

Definition status_unread (d : Importer.dict) : Prop :=
  Importer.dict_get "status" d = Py.Ok (Some "unread").

(** The file cannot be opened, or reading it fails at some point. *)
Definition unreadable (file : Py.result Csv.stream) : bool :=
  match file with
  | Py.Raise _ => true
  | Py.Ok f => match Csv.failure_of f with Some _ => true | None => false end
  end.

(** The constants [prepare_link_data] puts into every record. *)
Definition fixed_fields (link : Importer.Link) : Prop :=
  Importer.user_id link = Importer.USER_ID /\
  Importer.resolved_url link = None /\
  Importer.list_ link = "read" /\
  Importer.status link = "unread" /\
  Importer.device_saved link = "import_script" /\
  Importer.title link <> Some "".


(** Pauses of a given length in a trace. *)
Definition sleeps (milliseconds : Z) : Importer.Trace -> Z :=
  tally (fun e => match e with
                  | Importer.Sleep ms => if ms =? milliseconds then 1 else 0
                  | _ => 0
                  end).

(** Individual requests that came back with a response. *)
Definition individual_responses : Importer.Trace -> Z :=
  tally (fun e => match e with
                  | Importer.Post Importer.IndividualPost _ (Importer.Status _ _) => 1
                  | _ => 0
                  end).

(** The error entry names the URL of one of the records. *)
Definition names_url_of (links : list Importer.Link) (entry : string) : Prop :=
  exists link text,
    In link links /\
    entry = text ++ " - " ++ Importer.format_value (Importer.raw_url link).

(** The store accepts whatever it is sent. *)
Definition always_accepts (remote : Importer.Remote) : Prop :=
  forall tr body, succeeded (remote tr body) = true.

(** The file cannot be used as a source: missing, not to be opened, empty,
    failing on its first row, or starting with a blank line. *)
Definition unusable (entry : option (Py.result Csv.stream)) : bool :=
  match entry with
  | None => true
  | Some (Py.Raise _) => true
  | Some (Py.Ok Csv.Eof) => true
  | Some (Py.Ok (Csv.Fail _)) => true
  | Some (Py.Ok (Csv.Row [] _)) => true
  | Some (Py.Ok (Csv.Row (_ :: _) _)) => false
  end.

(** A file with a blank first line and an unread row after it. *)
Definition blank_first_line_directory : Extractor.Directory :=
  directory_of (Some (Py.Ok (Csv.of_rows [[]; row_A]))) None.

(** *** Proof steps used more than once *)

(** Case analysis on the integer comparisons an [if] tests. *)
Ltac split_ifs :=
  repeat match goal with
         | |- context [if ?a <? ?b then _ else _] => destruct (Z.ltb_spec a b)
         | |- context [if ?a <=? ?b then _ else _] => destruct (Z.leb_spec a b)
         end.

(** Evaluate the tallies of an explicit list of events. *)
Ltac tally_now :=
  unfold individual_failures, failed_batches, records_of_raised_batches, tally;
  cbn [fold_right succeeded].

(* ================================================================== *)
(** ** Properties of the runtime fragment *)
(* ================================================================== *)

Lemma civil_roundtrip (days : Z) :
  let '(y, m, d) := Py.civil_from_days days in Py.days_from_civil y m d = days.
Proof.
  unfold Py.civil_from_days, Py.days_from_civil. cbv zeta.
  split_ifs; Z.div_mod_to_equations; lia.
Qed.

(** [gmtime] is right: the broken-down time denotes the instant it was
    computed from. *)
Lemma timegm_gmtime (t : Z) : Py.timegm (Py.gmtime t) = t.
Proof.
  unfold Py.timegm, Py.gmtime.
  pose proof (civil_roundtrip (t / 86400)) as R.
  destruct (Py.civil_from_days (t / 86400)) as [[y m] d]. cbn.
  rewrite R. Z.div_mod_to_equations; lia.
Qed.






(** Outside [time_t] the conversion raises [OverflowError], whatever the
    time zone. *)
Lemma fromtimestamp_overflow (utcoffset : Z -> Z) (n : Z) :
  Py.TIME_T_MAX < n -> Py.fromtimestamp utcoffset n = Py.Raise Py.OverflowError.
Proof.
  intros H. unfold Py.fromtimestamp.
  replace (Py.TIME_T_MAX <? n) with true by (symmetry; apply Z.ltb_lt; lia).
  rewrite orb_true_r. reflexivity.
Qed.

Lemma digits_value_nonneg (s : string) (acc : Z) :
  Py.forallb_str Py.isdigit_char s = true -> 0 <= acc -> 0 <= Py.digits_value acc s.
Proof.
  revert acc. induction s as [| c r IH]; intros acc D A;
    cbn [Py.digits_value Py.forallb_str] in *; [exact A |].
  apply andb_prop in D. destruct D as [Dc Dr].
  apply IH; [exact Dr |].
  unfold Py.isdigit_char, Py.digit_value in *.
  apply andb_prop in Dc. destruct Dc as [Lo _].
  apply Nat.leb_le in Lo. lia.
Qed.

Lemma isdigit_value_nonneg (s : string) :
  Py.isdigit s = true -> 0 <= Py.digits_value 0 s.
Proof.
  intros D. apply digits_value_nonneg; [| lia].
  destruct s; [discriminate | exact D].
Qed.

Lemma isdigit_truthy (s : string) : Py.isdigit s = true -> Py.truthy s = true.
Proof. destruct s; [discriminate | reflexivity]. Qed.

(* ================================================================== *)
(** ** Timestamp conversion *)
(* ================================================================== *)

Example fromtimestamp_regimes :
  map (Py.fromtimestamp utc_host)
      [0; LAST_SECOND; LAST_SECOND + 1; 10 ^ 17; 2 ^ 63 - 1; 2 ^ 63] =
  [Py.Ok (Py.mk_datetime 1970 1 1 0 0 0 0);
   Py.Ok (Py.mk_datetime 9999 12 31 23 59 59 0);
   Py.Raise Py.ValueError; Py.Raise Py.OSError; Py.Raise Py.OSError;
   Py.Raise Py.OverflowError].
Proof. reflexivity. Qed.

Example unix_to_iso_examples :
  map (Importer.unix_to_iso utc_host noon_2025_06_01)
      ["100"; ""; "not-a-number"; "-5"; " 12"; "1000000000000"] =
  [Py.Ok "1970-01-01T00:01:40+00:00";
   Py.Ok "2025-06-01T12:00:00+00:00";
   Py.Ok "2025-06-01T12:00:00+00:00";
   Py.Ok "2025-06-01T12:00:00+00:00";
   Py.Ok "2025-06-01T12:00:00+00:00";
   Py.Ok "2025-06-01T12:00:00+00:00"].
Proof. reflexivity. Qed.

(** The handler of [unix_to_iso] lists [ValueError] and [OSError]; the
    [OverflowError] of a value outside [time_t] passes through it. *)
Lemma unix_to_iso_overflow (utcoffset : Z -> Z) (now : Py.datetime) (s : string) :
  Py.isdigit s = true ->
  (String.length s <= Py.INT_MAX_STR_DIGITS)%nat ->
  Py.TIME_T_MAX < Py.digits_value 0 s ->
  Importer.unix_to_iso utcoffset now s = Py.Raise Py.OverflowError.
Proof.
  intros D L V. unfold Importer.unix_to_iso, Py.int_of_digits.
  rewrite D, (isdigit_truthy s D).
  replace (Py.INT_MAX_STR_DIGITS <? String.length s)%nat with false
    by (symmetry; apply Nat.ltb_ge; exact L).
  cbn [andb Py.bind]. rewrite (fromtimestamp_overflow utcoffset _ V).
  reflexivity.
Qed.

(** Up to [time_t] the conversion is total and the result carries the
    offset, whatever the time zone. *)
Lemma unix_to_iso_total_within_time_t
      (utcoffset : Z -> Z) (now : Py.datetime) (s : string) :
  (Py.isdigit s = true -> Py.digits_value 0 s <= Py.TIME_T_MAX) ->
  exists body, Importer.unix_to_iso utcoffset now s = Py.Ok (body ++ "+00:00").
Proof.
  intros V. unfold Importer.unix_to_iso, Py.int_of_digits.
  destruct (Py.isdigit s) eqn:D.
  - rewrite (isdigit_truthy s D). cbn [andb].
    destruct (Py.INT_MAX_STR_DIGITS <? String.length s)%nat.
    + eexists. reflexivity.
    + cbn [Py.bind]. unfold Py.fromtimestamp.
      pose proof (isdigit_value_nonneg s D) as N. specialize (V eq_refl).
      replace (Py.digits_value 0 s <? Py.TIME_T_MIN) with false
        by (symmetry; apply Z.ltb_ge; unfold Py.TIME_T_MIN; lia).
      replace (Py.TIME_T_MAX <? Py.digits_value 0 s) with false
        by (symmetry; apply Z.ltb_ge; lia).
      cbn [orb].
      destruct (Py.localtime utcoffset (Py.digits_value 0 s)) as [tm |].
      * destruct ((Py.year tm <? Py.MINYEAR) || (Py.MAXYEAR <? Py.year tm));
          eexists; reflexivity.
      * eexists. reflexivity.
  - rewrite andb_false_r. eexists. reflexivity.
Qed.

(** C3 (defect).  The conversion is not total: a string of digits whose
    value is beyond the platform's [time_t], here ten to the twentieth,
    makes [datetime.fromtimestamp] raise [OverflowError], which the handler
    of [unix_to_iso] does not list, so the call raises instead of falling
    back to the current time. *)
Theorem unix_to_iso_raises_beyond_time_t (utcoffset : Z -> Z) (now : Py.datetime) :
  Importer.unix_to_iso utcoffset now "100000000000000000000"
  = Py.Raise Py.OverflowError.
Proof.
  apply unix_to_iso_overflow.
  - reflexivity.
  - apply Nat.leb_le. reflexivity.
  - reflexivity.
Qed.




(* ================================================================== *)
(** ** Whitespace trimming *)
(* ================================================================== *)





Lemma lstrip_decompose (s : string) :
  exists l, s = l ++ Py.lstrip s /\ Py.forallb_str Py.isspace l = true.
Proof.
  induction s as [| c r [l [E A]]].
  - exists "". split; reflexivity.
  - cbn [Py.lstrip]. destruct (Py.isspace c) eqn:S.
    + exists (String c l). split; [cbn; f_equal; exact E |].
      cbn. rewrite S. exact A.
    + exists "". split; reflexivity.
Qed.

Lemma rstrip_decompose (s : string) :
  exists r, s = Py.rstrip s ++ r /\ Py.forallb_str Py.isspace r = true.
Proof.
  induction s as [| c t [r [E A]]].
  - exists "". split; reflexivity.
  - cbn [Py.rstrip]. destruct (Py.rstrip t) as [| c' t'] eqn:R.
    + cbn in E. subst t. destruct (Py.isspace c) eqn:S.
      * exists (String c r). split; [reflexivity |]. cbn. rewrite S. exact A.
      * exists r. split; [reflexivity | exact A].
    + exists r. split; [| exact A]. cbn. f_equal. exact E.
Qed.

(** [strip] removes whitespace, and only whitespace, from both ends. *)
Lemma strip_decompose (s : string) :
  exists l r, s = l ++ Py.strip s ++ r /\
              Py.forallb_str Py.isspace l = true /\
              Py.forallb_str Py.isspace r = true.
Proof.
  destruct (lstrip_decompose s) as [l [El Al]].
  destruct (rstrip_decompose (Py.lstrip s)) as [r [Er Ar]].
  exists l, r. unfold Py.strip. rewrite <- Er. auto.
Qed.

(* ================================================================== *)
(** ** The extractor's row loop *)
(* ================================================================== *)

Lemma retained_iff (row : Csv.row) :
  retained row = true <->
  (5 <= List.length row)%nat /\ Py.strip (nth 4 row "") = "unread".
Proof.
  unfold retained. rewrite andb_true_iff, Nat.leb_le, String.eqb_eq. reflexivity.
Qed.


Lemma row_step_links (csv_file : string) (st : Extractor.Scan) (n : Z) (row : Csv.row) :
  Extractor.unread_links (Extractor.row_step csv_file st n row) =
  (Extractor.unread_links st ++
   (if retained row then [record_of csv_file row] else []))%list.
Proof.
  destruct row as [| a [| b [| c [| d [| e rest]]]]];
    unfold Extractor.row_step, retained, record_of;
    cbn [List.length Nat.leb andb nth];
    repeat match goal with
           | |- context [if ?b then _ else _] => destruct b
           end;
    cbn [Extractor.unread_links]; rewrite ?app_nil_r; reflexivity.
Qed.

Lemma row_step_count (csv_file : string) (st : Extractor.Scan) (n : Z) (row : Csv.row) :
  Extractor.file_unread (Extractor.row_step csv_file st n row) =
  Extractor.file_unread st + (if retained row then 1 else 0).
Proof.
  destruct row as [| a [| b [| c [| d [| e rest]]]]];
    unfold Extractor.row_step, retained;
    cbn [List.length Nat.leb andb nth];
    repeat match goal with
           | |- context [if ?b then _ else _] => destruct b
           end;
    cbn [Extractor.file_unread]; lia.
Qed.

Lemma scan_rows_links (csv_file : string) (rows : Csv.stream) :
  forall (n : Z) (st : Extractor.Scan),
    Extractor.unread_links (fst (Extractor.scan_rows csv_file n rows st)) =
    (Extractor.unread_links st ++
     map (record_of csv_file) (filter retained (Csv.rows_of rows)))%list.
Proof.
  induction rows as [| e | row rest IH]; intros n st; cbn [Extractor.scan_rows Csv.rows_of fst].
  - rewrite app_nil_r. reflexivity.
  - rewrite app_nil_r. reflexivity.
  - rewrite IH, row_step_links. cbn [filter].
    destruct (retained row); cbn [map]; rewrite <- ?app_assoc; reflexivity.
Qed.

Lemma scan_rows_count (csv_file : string) (rows : Csv.stream) :
  forall (n : Z) (st : Extractor.Scan),
    Extractor.file_unread (fst (Extractor.scan_rows csv_file n rows st)) =
    Extractor.file_unread st +
    Z.of_nat (List.length (filter retained (Csv.rows_of rows))).
Proof.
  induction rows as [| e | row rest IH]; intros n st; cbn [Extractor.scan_rows Csv.rows_of fst].
  - cbn. lia.
  - cbn. lia.
  - rewrite IH, row_step_count. cbn [filter].
    destruct (retained row); cbn [List.length]; lia.
Qed.

Lemma scan_rows_failure (csv_file : string) (rows : Csv.stream) :
  forall (n : Z) (st : Extractor.Scan),
    snd (Extractor.scan_rows csv_file n rows st) = Csv.failure_of rows.
Proof.
  induction rows as [| e | row rest IH]; intros n st; cbn; auto.
Qed.


Example scenario_rows :
  Extractor.unread_links
    (fst (Extractor.scan_rows "part_000000.csv" 1
            (Csv.of_rows [row_A; row_B; row_C]) (Extractor.mk_Scan [] 0 []))) =
  [Extractor.mk_UnreadLink "A" "http://x" "100" "" "unread" "part_000000.csv";
   Extractor.mk_UnreadLink "B" "http://y" "not-a-number" "" "unread" "part_000000.csv"].
Proof. reflexivity. Qed.

(* ================================================================== *)
(** ** Short rows and their warnings *)
(* ================================================================== *)






(** The warning is tied to the row number, not to the count of short rows:
    a short row that comes eleventh is not reported although it is the
    first one. *)
Example eleventh_row_not_logged :
  warned_rows
    (Extractor.console
       (fst (Extractor.scan_rows "part_000000.csv" 1
               (Csv.of_rows (repeat row_C 10 ++ [["x"; "y"]]))
               (Extractor.mk_Scan [] 0 [])))) = [].
Proof. reflexivity. Qed.


(* ================================================================== *)
(** ** The extractor's loop over the source files *)
(* ================================================================== *)

Lemma file_step_links (dir : Extractor.Directory) (st : Extractor.State) (f : string) :
  Extractor.all_unread_links (Extractor.file_step dir st f) =
  (Extractor.all_unread_links st ++
   map (record_of f) (filter retained (data_rows dir f)))%list.
Proof.
  unfold Extractor.file_step, data_rows.
  destruct (dir (Extractor.path_join Extractor.pocket_dir f)) as [[s | e] |];
    try (cbn; rewrite app_nil_r; reflexivity).
  destruct s as [| e | [| first more] rest];
    try (cbn; rewrite app_nil_r; reflexivity).
  destruct (String.eqb first "title").
  - pose proof (scan_rows_links f rest 1
                  (Extractor.mk_Scan (Extractor.all_unread_links st) 0
                     (Extractor.printed st ++ [Extractor.Processing f] ++
                      [Extractor.HeaderFound (first :: more)])%list)) as L.
    rewrite app_assoc in L.
    destruct (Extractor.scan_rows f 1 rest _) as [scan [e |]]; cbn in L |- *; exact L.
  - pose proof (scan_rows_links f (Csv.Row (first :: more) rest) 1
                  (Extractor.mk_Scan (Extractor.all_unread_links st) 0
                     (Extractor.printed st ++ [Extractor.Processing f])%list)) as L.
    destruct (Extractor.scan_rows f 1 (Csv.Row (first :: more) rest) _)
      as [scan [e |]]; cbn in L |- *; exact L.
Qed.

Lemma file_step_total (dir : Extractor.Directory) (st : Extractor.State) (f : string) :
  Extractor.total_unread (Extractor.file_step dir st f) =
  Extractor.total_unread st +
  (if read_fails dir f then 0
   else Z.of_nat (List.length (filter retained (data_rows dir f)))).
Proof.
  unfold Extractor.file_step, data_rows, read_fails.
  destruct (dir (Extractor.path_join Extractor.pocket_dir f)) as [[s | e] |];
    try (cbn; lia).
  destruct s as [| e | [| first more] rest]; try (cbn; lia).
  destruct (String.eqb first "title").
  - set (st0 := Extractor.mk_Scan _ _ _).
    pose proof (scan_rows_count f rest 1 st0) as C.
    pose proof (scan_rows_failure f rest 1 st0) as F.
    cbn [Csv.failure_of].
    destruct (Extractor.scan_rows f 1 rest st0) as [scan [e |]];
      cbn in C, F |- *; rewrite <- F; cbn; lia.
  - set (st0 := Extractor.mk_Scan _ _ _).
    pose proof (scan_rows_count f (Csv.Row (first :: more) rest) 1 st0) as C.
    pose proof (scan_rows_failure f (Csv.Row (first :: more) rest) 1 st0) as F.
    destruct (Extractor.scan_rows f 1 (Csv.Row (first :: more) rest) st0)
      as [scan [e |]]; cbn in C, F |- *; rewrite <- F; cbn; lia.
Qed.

(** The list the run accumulates holds the retained rows of every file,
    also of a file whose reading broke off. *)
Lemma files_links (dir : Extractor.Directory) :
  Extractor.all_unread_links
    (fold_left (Extractor.file_step dir) Extractor.csv_files
               (Extractor.mk_State [] 0 [])) = retained_records dir.
Proof.
  unfold retained_records. unfold Extractor.csv_files.
  cbn [fold_left flat_map].
  rewrite !file_step_links. cbn [Extractor.all_unread_links app].
  rewrite app_nil_r. reflexivity.
Qed.

(** The reported total leaves out every file whose reading broke off. *)
Lemma files_total (dir : Extractor.Directory) :
  Extractor.total_unread
    (fold_left (Extractor.file_step dir) Extractor.csv_files
               (Extractor.mk_State [] 0 [])) =
  fold_right
    (fun f acc =>
       (if read_fails dir f then 0
        else Z.of_nat (List.length (filter retained (data_rows dir f)))) + acc)
    0 Extractor.csv_files.
Proof.
  unfold Extractor.csv_files. cbn [fold_left fold_right].
  rewrite !file_step_total. cbn [Extractor.total_unread]. lia.
Qed.


Lemma retained_records_status (dir : Extractor.Directory) :
  Forall (fun link => Extractor.status link = "unread") (retained_records dir).
Proof.
  unfold retained_records. apply Forall_flat_map.
  apply Forall_forall. intros f _.
  apply Forall_map. apply Forall_forall. intros row I.
  apply filter_In in I. destruct I as [_ R].
  apply retained_iff in R. exact (proj2 R).
Qed.

(* ================================================================== *)
(** ** The normalized file *)
(* ================================================================== *)


Lemma written_rows (utcoffset : Z -> Z) (dir : Extractor.Directory) :
  Extractor.written (Extractor.extract_unread_links utcoffset dir) =
  match retained_records dir with
  | [] => None
  | links => Some (Extractor.header_row :: map Extractor.output_row links)
  end.
Proof.
  unfold Extractor.extract_unread_links. rewrite files_links.
  destruct (retained_records dir) as [| link links]; [reflexivity |].
  destruct (Extractor.show_samples utcoffset 0 _ _) as [out [e |]]; reflexivity.
Qed.


Example scenario_run :
  Extractor.returned (Extractor.extract_unread_links utc_host scenario_directory)
  = Py.Ok 2 /\
  Extractor.written (Extractor.extract_unread_links utc_host scenario_directory)
  = Some [Extractor.header_row;
          ["A"; "http://x"; "100"; ""; "unread"; "part_000000.csv"];
          ["B"; "http://y"; "not-a-number"; ""; "unread"; "part_000000.csv"]].
Proof. split; reflexivity. Qed.

(* ================================================================== *)
(** ** From the extractor's file to the importer's loader *)
(* ================================================================== *)

Lemma load_rows_written (links : list Extractor.UnreadLink) :
  Forall (fun link => Extractor.status link = "unread") links ->
  forall acc,
    Importer.load_rows Extractor.header_row
                       (Csv.of_rows (map Extractor.output_row links)) acc
    = Py.Ok (acc ++ map reloaded links)%list.
Proof.
  induction 1 as [| link links S _ IH]; intros acc.
  - cbn. rewrite app_nil_r. reflexivity.
  - cbn [map Csv.of_rows fold_right] in *.
    unfold Extractor.output_row at 1. cbn [Importer.load_rows].
    change (Importer.make_dict Extractor.header_row
              [Extractor.title link; Extractor.url link; Extractor.time_added link;
               Extractor.tags link; Extractor.status link;
               Extractor.source_file link] [])
      with (reloaded link).
    assert (Importer.dict_get "status" (reloaded link)
            = Py.Ok (Some (Extractor.status link))) as G by reflexivity.
    rewrite G. cbn [Py.bind Importer.value_eqb]. rewrite S.
    cbn [String.eqb Ascii.eqb Bool.eqb andb].
    rewrite IH, <- app_assoc. reflexivity.
Qed.

(** The loader keeps every row of a file the extractor wrote. *)
Lemma reloaded_count_written (utcoffset : Z -> Z) (dir : Extractor.Directory) :
  reloaded_count
    (Extractor.written (Extractor.extract_unread_links utcoffset dir))
  = Z.of_nat (List.length (retained_records dir)).
Proof.
  rewrite written_rows. unfold reloaded_count.
  pose proof (retained_records_status dir) as S.
  destruct (retained_records dir) as [| link links] eqn:E; [reflexivity |].
  unfold Importer.load_pocket_csv. cbn [Py.bind Csv.of_rows fold_right].
  change (fold_right Csv.Row Csv.Eof (map Extractor.output_row (link :: links)))
    with (Csv.of_rows (map Extractor.output_row (link :: links))).
  rewrite (load_rows_written _ S). cbn [app]. rewrite length_map. reflexivity.
Qed.

(** X8.  Where every source file is read to its end, the total the
    extractor reports is the number of records its file gives back to the
    loader. *)
Lemma roundtrip_count_when_reads_succeed
      (utcoffset : Z -> Z) (dir : Extractor.Directory) (total : Z) :
  (forall f, In f Extractor.csv_files -> read_fails dir f = false) ->
  Extractor.returned (Extractor.extract_unread_links utcoffset dir) = Py.Ok total ->
  reloaded_count (Extractor.written (Extractor.extract_unread_links utcoffset dir))
  = total.
Proof.
  intros Sound R. rewrite reloaded_count_written.
  assert (Extractor.total_unread
            (fold_left (Extractor.file_step dir) Extractor.csv_files
                       (Extractor.mk_State [] 0 []))
          = Z.of_nat (List.length (retained_records dir))) as T.
  { rewrite files_total. unfold retained_records.
    unfold Extractor.csv_files in *. cbn [fold_right flat_map].
    rewrite (Sound "part_000000.csv") by (left; reflexivity).
    rewrite (Sound "part_000001.csv") by (right; left; reflexivity).
    rewrite !length_app, !length_map. cbn [List.length]. lia. }
  unfold Extractor.extract_unread_links in R. rewrite files_links in R.
  rewrite T in R.
  destruct (retained_records dir) as [| link links].
  - cbn in R. injection R as <-. reflexivity.
  - destruct (Extractor.show_samples utcoffset 0 _ _) as [out [e |]];
      cbn in R; [discriminate R | injection R as <-; reflexivity].
Qed.

(** C6 (defect).  When reading a source file breaks off after a retained
    row, that row is already in [unread_links] and is written to the output
    file, but the file's count never reaches the total: the extractor
    reports 0 and the loader finds 1 record in the file it wrote. *)
Theorem roundtrip_count_off_after_read_error :
  Extractor.returned (Extractor.extract_unread_links utc_host truncated_directory)
  = Py.Ok 0 /\
  reloaded_count
    (Extractor.written (Extractor.extract_unread_links utc_host truncated_directory))
  = 1.
Proof. split; reflexivity. Qed.

(** C7 (defect).  The read error of the first file is caught and the second
    file is processed, and the first file adds nothing to the reported
    total; but the record it had yielded before the error stays in the
    retained set and is written to the output file: total 1, two rows. *)
Theorem interrupted_file_still_contributes :
  Extractor.returned (Extractor.extract_unread_links utc_host interrupted_directory)
  = Py.Ok 1 /\
  Extractor.written (Extractor.extract_unread_links utc_host interrupted_directory)
  = Some [Extractor.header_row;
          ["A"; "http://x"; "100"; ""; "unread"; "part_000000.csv"];
          ["B"; "http://y"; "not-a-number"; ""; "unread"; "part_000001.csv"]] /\
  In (Extractor.ErrorProcessing "part_000000.csv" Py.CsvError)
     (Extractor.output (Extractor.extract_unread_links utc_host interrupted_directory)).
Proof.
  split; [reflexivity |]. split; [reflexivity |].
  vm_compute. tauto.
Qed.

(* ================================================================== *)
(** ** The confirmation prompt *)
(* ================================================================== *)

Lemma batch_insert_positive (remote : Importer.Remote) (tr : Importer.Trace)
      (links : list Importer.Link) (batch_size : Z) :
  0 < batch_size ->
  Importer.batch_insert remote tr links batch_size =
  Py.Ok (fold_left (Importer.batch_step remote links batch_size)
                   (group_starts (Importer.len links) batch_size)
                   (Importer.no_results, tr)).
Proof.
  intros P. unfold Importer.batch_insert, Importer.range, group_starts.
  replace (batch_size =? 0) with false by (symmetry; apply Z.eqb_neq; lia).
  replace (0 <? batch_size) with true by (symmetry; apply Z.ltb_lt; lia).
  reflexivity.
Qed.



Example import_after_yes :
  Importer.import_links utc_host (example_world "Y") =
  let a := Importer.mk_Link "id-0" Importer.USER_ID (Some "http://x") None (Some "A")
             "read" "unread" "import_script" "1970-01-01T00:01:40+00:00" in
  let b := Importer.mk_Link "id-1" Importer.USER_ID (Some "http://y") None (Some "B")
             "read" "unread" "import_script" "2025-06-01T12:00:00+00:00" in
  (Py.Ok (Importer.Imported (Importer.mk_Results 2 0 [])),
   [Importer.Get (Importer.Status 200 "[]");
    Importer.Post Importer.BatchPost [a; b] (Importer.Status 201 "");
    Importer.Sleep 500]).
Proof. reflexivity. Qed.

(* ================================================================== *)
(** ** Sending: requests and counters *)
(* ================================================================== *)

Lemma tally_app (weight : Importer.Event -> Z) (a b : Importer.Trace) :
  tally weight (a ++ b)%list = tally weight a + tally weight b.
Proof.
  unfold tally. induction a as [| e a IH]; cbn [app fold_right]; lia.
Qed.

Lemma individual_failures_app (a b : Importer.Trace) :
  individual_failures (a ++ b)%list = individual_failures a + individual_failures b.
Proof. apply tally_app. Qed.

Lemma failed_batches_app (a b : Importer.Trace) :
  failed_batches (a ++ b)%list = failed_batches a + failed_batches b.
Proof. apply tally_app. Qed.

Lemma records_of_raised_batches_app (a b : Importer.Trace) :
  records_of_raised_batches (a ++ b)%list =
  records_of_raised_batches a + records_of_raised_batches b.
Proof. apply tally_app. Qed.

Lemma requests_app (a b : Importer.Trace) :
  requests (a ++ b)%list = (requests a ++ requests b)%list.
Proof. apply flat_map_app. Qed.

Lemma len_app {A} (a b : list A) :
  Importer.len (a ++ b)%list = Importer.len a + Importer.len b.
Proof. unfold Importer.len. rewrite length_app. lia. Qed.

Lemma len_cons {A} (x : A) (l : list A) : Importer.len (x :: l) = 1 + Importer.len l.
Proof. unfold Importer.len. cbn [List.length]. lia. Qed.

Lemma len_nonneg {A} (l : list A) : 0 <= Importer.len l.
Proof. unfold Importer.len. lia. Qed.

Lemma individual_step_effect (remote : Importer.Remote)
      (r : Importer.Results) (tr : Importer.Trace) (i : Z) (link : Importer.Link) :
  individual_effect [link] (r, tr) (Importer.individual_step remote (r, tr) i link).
Proof.
  unfold Importer.individual_step, individual_effect.
  change (Importer.len [link]) with 1.
  destruct (remote tr [link]) as [code text | message] eqn:R.
  - destruct (Importer.accepted code) eqn:A.
    + destruct (Importer.raw_url link) as [u |] eqn:U.
      * exists [Importer.Post Importer.IndividualPost [link] (Importer.Status code text);
                Importer.Sleep 200].
        cbn [fst snd]. rewrite <- app_assoc.
        repeat split; try (tally_now; rewrite ?A; cbn; lia).
      * exists [Importer.Post Importer.IndividualPost [link] (Importer.Status code text)].
        cbn [fst snd].
        split; [reflexivity |]. split; [reflexivity |].
        split; [reflexivity |]. split; [reflexivity |].
        split; [tally_now; rewrite A; cbn; lia |].
        unfold has_url. cbn [forallb]. rewrite U. discriminate.
    + exists [Importer.Post Importer.IndividualPost [link] (Importer.Status code text);
              Importer.Sleep 200].
      cbn [fst snd Importer.success Importer.failed Importer.errors].
      rewrite <- app_assoc, len_app.
      repeat split; try (tally_now; rewrite ?A; cbn; lia).
  - exists [Importer.Post Importer.IndividualPost [link] (Importer.Raised message)].
    cbn [fst snd Importer.success Importer.failed Importer.errors].
    rewrite len_app.
    repeat split; try (tally_now; cbn; lia).
Qed.

Lemma individual_loop_effect (remote : Importer.Remote) (links : list Importer.Link) :
  forall (i : Z) (acc : Importer.Results * Importer.Trace),
    individual_effect links acc (Importer.individual_loop remote i links acc).
Proof.
  induction links as [| link rest IH]; intros i [r tr]; cbn [Importer.individual_loop].
  - exists []. cbn [fst snd]. rewrite app_nil_r.
    repeat split; cbn; lia.
  - destruct (individual_step_effect remote r tr i link)
      as (e1 & T1 & Q1 & B1 & B1' & G1 & C1).
    destruct (Importer.individual_step remote (r, tr) i link) as [r1 tr1] eqn:S1.
    destruct (IH (i + 1) (r1, tr1)) as (e2 & T2 & Q2 & B2 & B2' & G2 & C2).
    cbn [fst snd] in *. change (Importer.len [link]) with 1 in *.
    exists (e1 ++ e2)%list. cbn [fst snd].
    rewrite failed_batches_app, records_of_raised_batches_app,
      individual_failures_app, requests_app, len_cons.
    split; [rewrite T2, T1, app_assoc; reflexivity |].
    split; [rewrite Q1, Q2; reflexivity |].
    split; [lia |]. split; [lia |]. split; [lia |].
    cbn [forallb]. intros H. apply andb_prop in H. destruct H as [H1 H2].
    assert (forallb has_url [link] = true) as H1' by (cbn; rewrite H1; reflexivity).
    specialize (C1 H1'). specialize (C2 H2). cbn [fst snd]. lia.
Qed.

Lemma forallb_firstn {A} (p : A -> bool) (n : nat) (l : list A) :
  forallb p l = true -> forallb p (firstn n l) = true.
Proof.
  revert l. induction n as [| n IH]; intros [| x l]; cbn; try reflexivity.
  intros H. apply andb_prop in H. destruct H as [Hx Hl].
  rewrite Hx. apply IH. exact Hl.
Qed.

Lemma forallb_skipn {A} (p : A -> bool) (n : nat) (l : list A) :
  forallb p l = true -> forallb p (skipn n l) = true.
Proof.
  revert l. induction n as [| n IH]; intros [| x l]; cbn; try (intros; assumption).
  intros H. apply andb_prop in H. destruct H as [_ Hl]. apply IH. exact Hl.
Qed.

Lemma forallb_slice (p : Importer.Link -> bool) (links : list Importer.Link) (lo hi : Z) :
  forallb p links = true -> forallb p (Importer.slice links lo hi) = true.
Proof.
  intros H. unfold Importer.slice. apply forallb_firstn, forallb_skipn. exact H.
Qed.

Lemma len_slice (links : list Importer.Link) (i batch_size : Z) :
  0 <= i -> 0 < batch_size ->
  Importer.len (Importer.slice links i (i + batch_size)) =
  Z.min batch_size (Z.max 0 (Importer.len links - i)).
Proof.
  intros Hi Hb. unfold Importer.len, Importer.slice.
  rewrite length_firstn, length_skipn. lia.
Qed.

Lemma batch_step_effect (remote : Importer.Remote) (links : list Importer.Link)
      (batch_size : Z) (r : Importer.Results) (tr : Importer.Trace) (i : Z) :
  group_effect (Importer.slice links i (i + batch_size))
               (remote tr (Importer.slice links i (i + batch_size)))
               (r, tr)
               (Importer.batch_step remote links batch_size (r, tr) i).
Proof.
  unfold Importer.batch_step, group_effect.
  set (batch := Importer.slice links i (i + batch_size)).
  destruct (remote tr batch) as [code text | message] eqn:R.
  - destruct (Importer.accepted code) eqn:A.
    + exists [Importer.Sleep 500].
      cbn [fst snd rejected negb Importer.success Importer.failed Importer.errors].
      rewrite A, <- app_assoc.
      split; [reflexivity |]. split; [reflexivity |]. intros _.
      tally_now. rewrite A. cbn. lia.
    + unfold Importer.individual_insert.
      destruct (individual_loop_effect remote batch 1
                  (Importer.no_results,
                   (tr ++ [Importer.Post Importer.BatchPost batch
                                         (Importer.Status code text)])%list))
        as (e & T & Q & B & B' & G & C).
      destruct (Importer.individual_loop remote 1 batch _) as [ind tr2].
      cbn [fst snd Importer.no_results Importer.success Importer.failed
           Importer.errors] in *.
      exists (e ++ [Importer.Sleep 500])%list.
      cbn [fst snd rejected Importer.success Importer.failed Importer.errors].
      rewrite A. cbn [negb].
      split; [rewrite T, <- !app_assoc; reflexivity |].
      split; [rewrite requests_app, Q; apply app_nil_r |].
      intros H. specialize (C H). cbn [Importer.len List.length] in C.
      change (Importer.Post Importer.BatchPost batch (Importer.Status code text)
              :: e ++ [Importer.Sleep 500])%list
        with ([Importer.Post Importer.BatchPost batch (Importer.Status code text)]
              ++ e ++ [Importer.Sleep 500])%list.
      rewrite !individual_failures_app, !failed_batches_app,
        !records_of_raised_batches_app, !len_app.
      rewrite B, B'.
      change (Importer.len (@nil string)) with 0 in C.
      set (f := individual_failures e) in *. clearbody f.
      tally_now. rewrite A. cbn. lia.
  - exists [Importer.Sleep 500].
    cbn [fst snd rejected Importer.success Importer.failed Importer.errors].
    rewrite <- app_assoc, len_app.
    split; [reflexivity |]. split; [reflexivity |]. intros _.
    tally_now. cbn. lia.
Qed.

Lemma run_shape_app groups1 reqs1 groups2 reqs2 :
  run_shape groups1 reqs1 -> run_shape groups2 reqs2 ->
  run_shape (groups1 ++ groups2) (reqs1 ++ reqs2).
Proof.
  induction 1 as [| batch rest reqs _ IH | batch rest reqs _ IH]; intros S2.
  - exact S2.
  - cbn [app]. apply shape_plain, IH, S2.
  - cbn [app]. rewrite <- app_assoc. apply shape_escalated, IH, S2.
Qed.

Lemma fold_left_seq_invariant {A} (P : nat -> A -> Prop) (f : A -> Z -> A)
      (g : nat -> Z) (n : nat) (init : A) :
  P O init ->
  (forall k a, (k < n)%nat -> P k a -> P (S k) (f a (g k))) ->
  P n (fold_left f (map g (seq 0 n)) init).
Proof.
  intros Base Step. induction n as [| n IH]; [exact Base |].
  rewrite seq_S, map_app, fold_left_app. cbn [map fold_left Nat.add].
  apply Step; [lia |]. apply IH. intros k a Hk. apply Step. lia.
Qed.

Lemma run_invariant_step (remote : Importer.Remote) (links : list Importer.Link)
      (batch_size : Z) (tr : Importer.Trace) (k : nat)
      (acc : Importer.Results * Importer.Trace) :
  0 < batch_size ->
  run_invariant links batch_size tr k acc ->
  run_invariant links batch_size tr (S k)
                (Importer.batch_step remote links batch_size acc
                                     (0 + Z.of_nat k * batch_size)).
Proof.
  intros Hb (events & T & Shape & Count). destruct acc as [r tr1].
  cbn [fst snd] in *. subst tr1.
  set (i := 0 + Z.of_nat k * batch_size) in *.
  destruct (batch_step_effect remote links batch_size r (tr ++ events)%list i)
    as (e & T & Q & C).
  cbv zeta in T, C. cbn [fst snd] in T, C.
  set (batch := Importer.slice links i (i + batch_size)) in *.
  set (resp := remote (tr ++ events)%list batch) in *.
  exists (events ++ Importer.Post Importer.BatchPost batch resp :: e)%list.
  split; [rewrite T, <- app_assoc; reflexivity |]. split.
  - rewrite seq_S, map_app, requests_app. cbn [map Nat.add].
    apply run_shape_app; [exact Shape |].
    fold i. fold batch. cbn [requests flat_map app]. fold (requests e). rewrite Q.
    destruct (rejected resp).
    + rewrite <- (app_nil_r (escalation batch)). apply shape_escalated, shape_done.
    + apply shape_plain, shape_done.
  - intros H. specialize (Count H).
    specialize (C (forallb_slice has_url links i (i + batch_size) H)).
    rewrite individual_failures_app, failed_batches_app,
      records_of_raised_batches_app.
    assert (0 <= i) as Hi by (unfold i; nia).
    pose proof (len_slice links i batch_size Hi Hb) as L. fold batch in L.
    pose proof (len_nonneg links) as N.
    replace (Z.of_nat (S k) * batch_size) with (i + batch_size) by (unfold i; lia).
    replace (Z.of_nat k * batch_size) with i in Count by (unfold i; lia).
    lia.
Qed.

(** The whole run of [batch_insert] with a positive group size. *)
Lemma batch_insert_run (remote : Importer.Remote) (tr : Importer.Trace)
      (links : list Importer.Link) (batch_size : Z) :
  0 < batch_size ->
  exists results events,
    Importer.batch_insert remote tr links batch_size
    = Py.Ok (results, (tr ++ events)%list) /\
    run_shape (groups links batch_size) (requests events) /\
    (forallb has_url links = true ->
     Importer.success results + Importer.failed results = Importer.len links /\
     Importer.failed results =
       individual_failures events + records_of_raised_batches events /\
     Importer.len (Importer.errors results) =
       failed_batches events + individual_failures events).
Proof.
  intros Hb. rewrite batch_insert_positive by exact Hb.
  unfold group_starts.
  set (n := Z.to_nat ((Importer.len links - 0 + batch_size - 1) / batch_size)).
  assert (run_invariant links batch_size tr n
            (fold_left (Importer.batch_step remote links batch_size)
                       (map (fun k => 0 + Z.of_nat k * batch_size) (seq 0 n))
                       (Importer.no_results, tr))) as (events & T & Shape & Count).
  { apply (fold_left_seq_invariant (run_invariant links batch_size tr)).
    - exists []. cbn [fst snd]. rewrite app_nil_r.
      split; [reflexivity |]. split; [constructor |]. intros _. cbn. 
      pose proof (len_nonneg links). lia.
    - intros k a _ I. apply run_invariant_step; assumption. }
  destruct (fold_left _ _ _) as [results tr'] eqn:F. cbn [fst snd] in *. subst tr'.
  exists results, events. split; [reflexivity |]. split.
  - unfold groups, group_starts. rewrite map_map. exact Shape.
  - intros H. specialize (Count H).
    pose proof (len_nonneg links) as N.
    assert (Importer.len links <= Z.of_nat n * batch_size) as Enough.
    { unfold n. rewrite Z2Nat.id by (apply Z.div_pos; lia).
      pose proof (Z.div_mod (Importer.len links - 0 + batch_size - 1) batch_size) as D.
      pose proof (Z.mod_pos_bound (Importer.len links - 0 + batch_size - 1)
                                  batch_size Hb) as M.
      specialize (D ltac:(lia)). nia. }
    lia.
Qed.

(* ================================================================== *)
(** ** Escalation and accounting of the batch send *)
(* ================================================================== *)

Example rejected_batch_run :
  Importer.batch_insert picky [] [link_a; link_b; link_c] 50 =
  Py.Ok (Importer.mk_Results 2 1
           ["Batch 1 failed: 500 - Internal Server Error";
            "Individual 2 failed: 400 - http://y"],
         [Importer.Post Importer.BatchPost [link_a; link_b; link_c]
                        (Importer.Status 500 "Internal Server Error");
          Importer.Post Importer.IndividualPost [link_a] (Importer.Status 201 "");
          Importer.Sleep 200;
          Importer.Post Importer.IndividualPost [link_b] (Importer.Status 400 "");
          Importer.Sleep 200;
          Importer.Post Importer.IndividualPost [link_c] (Importer.Status 201 "");
          Importer.Sleep 200;
          Importer.Sleep 500]).
Proof. reflexivity. Qed.

Example raised_batch_run :
  Importer.batch_insert unreachable [] [link_a; link_b] 50 =
  Py.Ok (Importer.mk_Results 0 2 ["Batch 1 exception: Connection refused"],
         [Importer.Post Importer.BatchPost [link_a; link_b]
                        (Importer.Raised "Connection refused");
          Importer.Sleep 500]).
Proof. reflexivity. Qed.

(** C1 (as stated, refuted).  A group whose batched request raises is not
    sent record by record: the exception handler of [batch_insert] counts
    the whole group as failed and goes on to the next group. *)
Lemma no_escalation_after_exception :
  ~ (forall remote links results tr,
        Importer.batch_insert remote [] links 50 = Py.Ok (results, tr) ->
        succeeded (remote [] (Importer.slice links 0 50)) = false ->
        forall link,
          In link (Importer.slice links 0 50) ->
          In (Importer.IndividualPost, [link]) (requests tr)).
Proof.
  intros H.
  specialize (H unreachable [link_a; link_b] _ _ raised_batch_run eq_refl
                link_a (or_introl eq_refl)).
  cbn in H. destruct H as [H | []]. discriminate H.
Qed.

(** C1 (amended).  For every group: after its batched request, the group
    is sent record by record, one individual request per record and in
    order, exactly when the batched request came back with a failure
    response (a status other than 200 and 201); when it succeeded or raised
    no individual request is issued.  Over a whole run with a positive
    group size the requests are, group after group, the batched request of
    the group followed at most once by its escalation; nothing is sent a
    third time. *)
Theorem failed_group_escalates_once
        (remote : Importer.Remote) (links : list Importer.Link) (batch_size : Z) :
  (forall results tr i,
      let batch := Importer.slice links i (i + batch_size) in
      let resp := remote tr batch in
      exists events,
        snd (Importer.batch_step remote links batch_size (results, tr) i)
        = (tr ++ Importer.Post Importer.BatchPost batch resp :: events)%list /\
        requests events = if rejected resp then escalation batch else [])
  /\ (0 < batch_size ->
      forall tr,
      exists results events,
        Importer.batch_insert remote tr links batch_size
        = Py.Ok (results, (tr ++ events)%list) /\
        run_shape (groups links batch_size) (requests events)).
Proof.
  split.
  - intros results tr i. cbv zeta.
    destruct (batch_step_effect remote links batch_size results tr i)
      as (events & T & Q & _).
    exists events. split; [exact T | exact Q].
  - intros Hb tr.
    destruct (batch_insert_run remote tr links batch_size Hb)
      as (results & events & E & Shape & _).
    exists results, events. split; [exact E | exact Shape].
Qed.

Lemma failed_group_escalates_once_witness :
  exists results events,
    Importer.batch_insert picky [] [link_a; link_b; link_c] 2
    = Py.Ok (results, ([] ++ events)%list) /\
    run_shape (groups [link_a; link_b; link_c] 2) (requests events).
Proof.
  apply (proj2 (failed_group_escalates_once picky [link_a; link_b; link_c] 2)).
  reflexivity.
Defined.




(** A record without URL whose individual request is accepted is counted
    twice, once as a success and once as a failure. *)
Example record_without_url_counted_twice :
  let nameless := Importer.mk_Link "id-9" Importer.USER_ID None None None
                    "read" "unread" "import_script" "1970-01-01T00:00:00+00:00" in
  Importer.individual_insert accepting [] [nameless] =
  (Importer.mk_Results 1 1
     ["Individual 1 exception: 'NoneType' object is not subscriptable - None"],
   [Importer.Post Importer.IndividualPost [nameless] (Importer.Status 201 "")]).
Proof. reflexivity. Qed.


(* ================================================================== *)
(** ** Further properties: timestamps and conversion *)
(* ================================================================== *)

(** How a call of [unix_to_iso] ends, whatever the time zone. *)
Lemma unix_to_iso_outcome (utcoffset : Z -> Z) (now : Py.datetime) (s : string) :
  match Importer.unix_to_iso utcoffset now s with
  | Py.Ok iso => beyond_time_t s = false /\ exists body, iso = body ++ "+00:00"
  | Py.Raise e => beyond_time_t s = true /\ e = Py.OverflowError
  end.
Proof.
  unfold Importer.unix_to_iso, beyond_time_t, Py.int_of_digits.
  destruct (Py.isdigit s) eqn:D.
  - rewrite (isdigit_truthy s D). cbn [andb].
    destruct (Nat.ltb_spec Py.INT_MAX_STR_DIGITS (String.length s)) as [Long | Short].
    + replace (String.length s <=? Py.INT_MAX_STR_DIGITS)%nat with false
        by (symmetry; apply Nat.leb_gt; exact Long).
      cbn [Py.bind Py.catch existsb Py.exn_eqb orb andb].
      split; [reflexivity | eexists; reflexivity].
    + replace (String.length s <=? Py.INT_MAX_STR_DIGITS)%nat with true
        by (symmetry; apply Nat.leb_le; exact Short).
      cbn [andb Py.bind]. unfold Py.fromtimestamp.
      pose proof (isdigit_value_nonneg s D) as N.
      replace (Py.digits_value 0 s <? Py.TIME_T_MIN) with false
        by (symmetry; apply Z.ltb_ge; unfold Py.TIME_T_MIN; lia).
      cbn [orb].
      destruct (Py.TIME_T_MAX <? Py.digits_value 0 s).
      * cbn [Py.bind Py.catch existsb Py.exn_eqb orb andb]. split; reflexivity.
      * destruct (Py.localtime utcoffset (Py.digits_value 0 s)) as [tm |].
        -- destruct ((Py.year tm <? Py.MINYEAR) || (Py.MAXYEAR <? Py.year tm));
             cbn [Py.bind Py.catch existsb Py.exn_eqb orb andb];
             (split; [reflexivity | eexists; reflexivity]).
        -- cbn [Py.bind Py.catch existsb Py.exn_eqb orb andb].
           split; [reflexivity | eexists; reflexivity].
  - rewrite andb_false_r. cbn [Py.bind Py.catch].
    split; [reflexivity | eexists; reflexivity].
Qed.


(** One record of [prepare_link_data]. *)
Lemma prepare_link_data_outcome (utcoffset : Z -> Z) (link_id : string)
      (now : Py.datetime) (d : Importer.dict) :
  match Importer.prepare_link_data utcoffset link_id now d with
  | Py.Ok link =>
      Importer.id link = link_id /\
      Importer.raw_url link = cell "url" d /\
      Importer.created_at link <> "" /\
      fixed_fields link /\
      has_key "url" d = true /\ has_key "title" d = true /\
      has_key "time_added" d = true
  | Py.Raise e =>
      (e = Py.KeyError /\
       (has_key "url" d && has_key "title" d && has_key "time_added" d) = false)
      \/ (e = Py.OverflowError /\
          exists ta, Importer.dict_get "time_added" d = Py.Ok (Some ta) /\
                     beyond_time_t ta = true)
  end.
Proof.
  assert (forall k, match Importer.dict_get k d with
                    | Py.Ok _ => has_key k d = true
                    | Py.Raise e => e = Py.KeyError /\ has_key k d = false
                    end) as Key.
  { intros k. unfold has_key. induction d as [| [k' v] d IH]; cbn.
    - split; reflexivity.
    - destruct (String.eqb k k'); [reflexivity | exact IH]. }
  unfold Importer.prepare_link_data, cell.
  pose proof (Key "url") as Ku. pose proof (Key "title") as Kt.
  pose proof (Key "time_added") as Ka.
  destruct (Importer.dict_get "url" d) as [u | e].
  2: { destruct Ku as [-> Hu]. cbn [Py.bind]. left. rewrite Hu. split; reflexivity. }
  destruct (Importer.dict_get "title" d) as [t | e].
  2: { destruct Kt as [-> Ht]. cbn [Py.bind]. left. rewrite Ht, andb_false_r.
       split; reflexivity. }
  destruct (Importer.dict_get "time_added" d) as [a | e].
  2: { destruct Ka as [-> Ha]. cbn [Py.bind]. left. rewrite Ha, andb_false_r.
       split; reflexivity. }
  cbn [Py.bind].
  pose proof (unix_to_iso_outcome utcoffset now
                (match a with Some s => s | None => "" end)) as O.
  destruct (Importer.unix_to_iso utcoffset now _) as [iso | e]; cbn [Py.bind].
  - destruct O as [_ [body ->]]. cbn.
    split; [reflexivity |]. split; [reflexivity |].
    split; [destruct body; discriminate |].
    split; [| auto].
    unfold fixed_fields. cbn. repeat split.
    destruct t as [[| c r] |]; cbn; discriminate.
  - destruct O as [B ->]. right. split; [reflexivity |].
    destruct a as [ta |]; [exists ta; split; [reflexivity | exact B] |].
    discriminate B.
Qed.

Lemma prepare_all_outcome (utcoffset : Z -> Z) (uuid4 : nat -> string)
      (clock : nat -> Py.datetime) (rows : list Importer.dict) :
  forall k,
    match Importer.prepare_all utcoffset uuid4 clock k rows with
    | Py.Ok links =>
        map Importer.id links = map uuid4 (seq k (List.length rows)) /\
        map Importer.raw_url links = map (cell "url") rows /\
        Forall fixed_fields links
    | Py.Raise e => e = Py.KeyError \/ e = Py.OverflowError
    end.
Proof.
  induction rows as [| d rows IH]; intros k; cbn [Importer.prepare_all].
  - cbn. repeat split. constructor.
  - pose proof (prepare_link_data_outcome utcoffset (uuid4 k) (clock k) d) as O.
    destruct (Importer.prepare_link_data utcoffset (uuid4 k) (clock k) d)
      as [link | e]; cbn [Py.bind].
    + specialize (IH (S k)).
      destruct (Importer.prepare_all utcoffset uuid4 clock (S k) rows)
        as [links | e]; cbn [Py.bind].
      * destruct O as (I & U & _ & F & _). destruct IH as (Is & Us & Fs).
        cbn [map List.length seq]. rewrite I, U, Is, Us.
        repeat split. constructor; assumption.
      * exact IH.
    + destruct O as [[-> _] | [-> _]]; [left | right]; reflexivity.
Qed.

(** X2.  The conversion of the loaded rows keeps their number and order:
    the k-th record carries the k-th identifier drawn, the URL cell of the
    k-th row, and the fixed fields (owner, no resolved URL, list [read],
    status [unread], device [import_script]); a title is never the empty
    string.  The only exceptions are [KeyError], for a row without one of
    the three columns, and the [OverflowError] of a timestamp. *)
Theorem conversion_keeps_rows_in_order
        (utcoffset : Z -> Z) (uuid4 : nat -> string) (clock : nat -> Py.datetime)
        (rows : list Importer.dict) :
  match Importer.prepare_all utcoffset uuid4 clock 0 rows with
  | Py.Ok links =>
      List.length links = List.length rows /\
      map Importer.id links = map uuid4 (seq 0 (List.length rows)) /\
      map Importer.raw_url links = map (cell "url") rows /\
      Forall fixed_fields links
  | Py.Raise e => e = Py.KeyError \/ e = Py.OverflowError
  end.
Proof.
  pose proof (prepare_all_outcome utcoffset uuid4 clock rows 0) as O.
  destruct (Importer.prepare_all utcoffset uuid4 clock 0 rows) as [links | e];
    [| exact O].
  destruct O as (I & U & F). split; [| auto].
  rewrite <- (length_map Importer.raw_url links), U. apply length_map.
Qed.

(* ================================================================== *)
(** ** Further properties: the loader *)
(* ================================================================== *)

Lemma dict_get_set_same (k : string) (v : option string) (d : Importer.dict) :
  Importer.dict_get k (Importer.dict_set k v d) = Py.Ok v.
Proof.
  induction d as [| [k' v'] d IH]; cbn.
  - rewrite String.eqb_refl. reflexivity.
  - destruct (String.eqb k k') eqn:E; cbn.
    + rewrite String.eqb_refl. reflexivity.
    + rewrite E. exact IH.
Qed.

Lemma dict_get_set_other (k k' : string) (v : option string) (d : Importer.dict) :
  String.eqb k k' = false ->
  Importer.dict_get k (Importer.dict_set k' v d) = Importer.dict_get k d.
Proof.
  intros N. induction d as [| [k'' v''] d IH]; cbn.
  - rewrite N. reflexivity.
  - destruct (String.eqb k' k'') eqn:E; cbn.
    + apply String.eqb_eq in E. subst k''. rewrite N. reflexivity.
    + destruct (String.eqb k k''); [reflexivity | exact IH].
Qed.

Lemma make_dict_get_absent (k : string) (fieldnames : list string) :
  ~ In k fieldnames ->
  forall row d,
    Importer.dict_get k (Importer.make_dict fieldnames row d) = Importer.dict_get k d.
Proof.
  induction fieldnames as [| f fs IH]; intros Absent row d.
  - destruct row; reflexivity.
  - assert (String.eqb k f = false) as N.
    { apply String.eqb_neq. intros ->. apply Absent. left. reflexivity. }
    assert (~ In k fs) as Absent' by (intros I; apply Absent; right; exact I).
    destruct row as [| c cs]; cbn [Importer.make_dict];
      rewrite (IH Absent'); apply dict_get_set_other; exact N.
Qed.

(** What the row loop of the loader returns: the rows so far, then rows
    whose status cell reads [unread]; and it returns only if the file was
    read to its end. *)
Lemma load_rows_outcome (fieldnames : list string) (s : Csv.stream) :
  forall acc,
    match Importer.load_rows fieldnames s acc with
    | Py.Ok links =>
        Csv.failure_of s = None /\
        exists new, links = (acc ++ new)%list /\ Forall status_unread new /\
                    (List.length new <= List.length (Csv.rows_of s))%nat
    | Py.Raise _ => True
    end.
Proof.
  induction s as [| e | r rest IH]; intros acc.
  - cbn. split; [reflexivity |]. exists []. rewrite app_nil_r.
    split; [reflexivity |]. split; [apply Forall_nil | cbn; lia].
  - exact I.
  - destruct r as [| c cs].
    + cbn [Importer.load_rows Csv.failure_of Csv.rows_of List.length].
      specialize (IH acc). destruct (Importer.load_rows fieldnames rest acc); [| exact I].
      destruct IH as (F & new & E & U & L). split; [exact F |].
      exists new. split; [exact E |]. split; [exact U | lia].
    + cbn [Importer.load_rows Csv.failure_of Csv.rows_of List.length].
      set (row := Importer.make_dict fieldnames (c :: cs) []).
      destruct (Importer.dict_get "status" row) as [v | e] eqn:G; cbn [Py.bind];
        [| exact I].
      destruct (Importer.value_eqb v "unread") eqn:V.
      * specialize (IH (acc ++ [row])%list).
        destruct (Importer.load_rows fieldnames rest (acc ++ [row])%list); [| exact I].
        destruct IH as (F & new & E & U & L). split; [exact F |].
        exists (row :: new). split; [rewrite E, <- app_assoc; reflexivity |].
        split; [| cbn [List.length]; lia].
        constructor; [| exact U]. unfold status_unread. rewrite G.
        destruct v as [x |]; [| discriminate V]. cbn in V.
        apply String.eqb_eq in V. subst x. reflexivity.
      * specialize (IH acc).
        destruct (Importer.load_rows fieldnames rest acc); [| exact I].
        destruct IH as (F & new & E & U & L). split; [exact F |].
        exists new. split; [exact E |]. split; [exact U | lia].
Qed.

(** X3.  Whatever the file, every row the loader returns has a status cell
    that reads exactly [unread], and the loader never returns more rows
    than the file has after its header. *)
Theorem loader_returns_unread_rows_only (file : Py.result Csv.stream) :
  Forall status_unread (Importer.load_pocket_csv file)
  /\ (List.length (Importer.load_pocket_csv file) <=
      match file with
      | Py.Ok f => List.length (Csv.rows_of f) - 1
      | Py.Raise _ => 0
      end)%nat.
Proof.
  unfold Importer.load_pocket_csv.
  destruct file as [[| e | fieldnames rest] | e]; cbn [Py.bind Csv.rows_of List.length];
    try (split; [constructor | cbn; lia]).
  pose proof (load_rows_outcome fieldnames rest []) as O.
  destruct (Importer.load_rows fieldnames rest []) as [links | e];
    [| split; [constructor | cbn; lia]].
  destruct O as (_ & new & -> & U & L). cbn [app]. split; [exact U | lia].
Qed.

(** X4.  A file that cannot be opened, or whose reading fails at any point,
    loads as no rows at all: the rows read before the failure are dropped. *)
Theorem loader_gives_nothing_on_read_error (file : Py.result Csv.stream) :
  unreadable file = true -> Importer.load_pocket_csv file = [].
Proof.
  unfold unreadable, Importer.load_pocket_csv.
  destruct file as [[| e | fieldnames rest] | e]; cbn [Py.bind Csv.failure_of];
    try reflexivity.
  intros U. pose proof (load_rows_outcome fieldnames rest []) as O.
  destruct (Importer.load_rows fieldnames rest []) as [links | e]; [| reflexivity].
  destruct O as (F & _). rewrite F in U. discriminate U.
Qed.

Lemma loader_gives_nothing_on_read_error_witness :
  Importer.load_pocket_csv
    (Py.Ok (Csv.Row Extractor.header_row
              (Csv.Row ["A"; "http://x"; "100"; ""; "unread"; "part_000000.csv"]
                       (Csv.Fail Py.CsvError)))) = [].
Proof.
  apply loader_gives_nothing_on_read_error. reflexivity.
Defined.

Lemma load_rows_without_status (fieldnames : list string) (s : Csv.stream) :
  ~ In "status" fieldnames ->
  forall acc,
    match Importer.load_rows fieldnames s acc with
    | Py.Ok links => links = acc
    | Py.Raise _ => True
    end.
Proof.
  intros Absent. induction s as [| e | r rest IH]; intros acc.
  - reflexivity.
  - exact I.
  - destruct r as [| c cs]; cbn [Importer.load_rows]; [apply IH |].
    rewrite (make_dict_get_absent "status" fieldnames Absent). exact I.
Qed.

(** X5.  When the first row of the file does not name a column [status],
    the loader returns no rows, whatever the file holds: the lookup of the
    status cell raises [KeyError] on the first row that has cells, and the
    exception empties the result. *)
Theorem loader_needs_the_status_column (fieldnames : list string) (rest : Csv.stream) :
  ~ In "status" fieldnames ->
  Importer.load_pocket_csv (Py.Ok (Csv.Row fieldnames rest)) = [].
Proof.
  intros Absent. unfold Importer.load_pocket_csv. cbn [Py.bind].
  pose proof (load_rows_without_status fieldnames rest Absent []) as O.
  destruct (Importer.load_rows fieldnames rest []) as [links | e];
    [exact O | reflexivity].
Qed.

Lemma loader_needs_the_status_column_witness :
  Importer.load_pocket_csv
    (Py.Ok (Csv.Row ["title"; "url"] (Csv.of_rows [["A"; "http://x"]]))) = [].
Proof.
  apply loader_needs_the_status_column.
  intros [H | [H | []]]; discriminate H.
Defined.

Lemma load_rows_written_filter (links : list Extractor.UnreadLink) :
  forall acc,
    Importer.load_rows Extractor.header_row
                       (Csv.of_rows (map Extractor.output_row links)) acc
    = Py.Ok (acc ++ map reloaded (filter is_unread links))%list.
Proof.
  induction links as [| link links IH]; intros acc.
  - cbn. rewrite app_nil_r. reflexivity.
  - cbn [map Csv.of_rows fold_right filter] in *.
    unfold Extractor.output_row at 1. cbn [Importer.load_rows].
    change (Importer.make_dict Extractor.header_row
              [Extractor.title link; Extractor.url link; Extractor.time_added link;
               Extractor.tags link; Extractor.status link;
               Extractor.source_file link] [])
      with (reloaded link).
    assert (Importer.dict_get "status" (reloaded link)
            = Py.Ok (Some (Extractor.status link))) as G by reflexivity.
    rewrite G. cbn [Py.bind Importer.value_eqb]. unfold is_unread.
    destruct (String.eqb (Extractor.status link) "unread").
    + rewrite IH. cbn [map]. rewrite <- app_assoc. reflexivity.
    + apply IH.
Qed.

(** X6.  Reading back a file made of the extractor's header and of the
    rows of some records, the loader returns, in order, the records whose
    status is [unread], each as a row in which the six columns hold the six
    fields of the record. *)
Theorem loader_reads_back_written_records (links : list Extractor.UnreadLink) :
  Importer.load_pocket_csv
    (Py.Ok (Csv.of_rows (Extractor.header_row :: map Extractor.output_row links)))
  = map reloaded (filter is_unread links)
  /\ forall link,
      Importer.dict_get "title" (reloaded link) = Py.Ok (Some (Extractor.title link)) /\
      Importer.dict_get "url" (reloaded link) = Py.Ok (Some (Extractor.url link)) /\
      Importer.dict_get "time_added" (reloaded link)
        = Py.Ok (Some (Extractor.time_added link)) /\
      Importer.dict_get "tags" (reloaded link) = Py.Ok (Some (Extractor.tags link)) /\
      Importer.dict_get "status" (reloaded link)
        = Py.Ok (Some (Extractor.status link)) /\
      Importer.dict_get "source_file" (reloaded link)
        = Py.Ok (Some (Extractor.source_file link)).
Proof.
  split.
  - unfold Importer.load_pocket_csv. cbn [Py.bind Csv.of_rows fold_right].
    change (fold_right Csv.Row Csv.Eof (map Extractor.output_row links))
      with (Csv.of_rows (map Extractor.output_row links)).
    rewrite load_rows_written_filter. reflexivity.
  - intros link. repeat split; reflexivity.
Qed.

(* ================================================================== *)
(** ** Further properties: the extractor *)
(* ================================================================== *)






(** X11.  A source file that is missing, cannot be opened, is empty, fails
    on its first row, or starts with a blank line adds nothing: the list of
    records and the total stay as they were, whatever rows the file holds
    after a blank first line. *)
Theorem unusable_file_adds_nothing
        (dir : Extractor.Directory) (st : Extractor.State) (f : string) :
  unusable (dir (Extractor.path_join Extractor.pocket_dir f)) = true ->
  Extractor.all_unread_links (Extractor.file_step dir st f)
  = Extractor.all_unread_links st /\
  Extractor.total_unread (Extractor.file_step dir st f) = Extractor.total_unread st.
Proof.
  unfold Extractor.file_step, unusable.
  destruct (dir (Extractor.path_join Extractor.pocket_dir f))
    as [[[| e | [| first more] rest] | e] |]; intros U;
    try discriminate U; split; reflexivity.
Qed.

Lemma unusable_file_adds_nothing_witness :
  Extractor.all_unread_links
    (Extractor.file_step blank_first_line_directory (Extractor.mk_State [] 0 [])
                         "part_000000.csv") = [] /\
  Extractor.total_unread
    (Extractor.file_step blank_first_line_directory (Extractor.mk_State [] 0 [])
                         "part_000000.csv") = 0.
Proof.
  apply (unusable_file_adds_nothing blank_first_line_directory
           (Extractor.mk_State [] 0 []) "part_000000.csv").
  reflexivity.
Defined.

(** X12.  The row loop only appends to the list of records, and the
    per-file counter goes up by one for every record appended; both hold
    at whatever point reading stops, at the end of the file or on an
    error. *)
Theorem row_loop_counts_what_it_appends
        (csv_file : string) (rows : Csv.stream) (n : Z) (st : Extractor.Scan) :
  let scan := fst (Extractor.scan_rows csv_file n rows st) in
  (exists new,
      Extractor.unread_links scan = (Extractor.unread_links st ++ new)%list /\
      Extractor.file_unread scan
      = Extractor.file_unread st + Z.of_nat (List.length new) /\
      Forall (fun link => Extractor.source_file link = csv_file /\
                          Extractor.status link = "unread") new).
Proof.
  cbv zeta.
  exists (map (record_of csv_file) (filter retained (Csv.rows_of rows))).
  split; [apply scan_rows_links |].
  split; [rewrite scan_rows_count, length_map; reflexivity |].
  apply Forall_map. apply Forall_forall. intros row R.
  apply filter_In in R. apply proj2, retained_iff in R.
  split; [reflexivity | exact (proj2 R)].
Qed.



Lemma roundtrip_count_when_reads_succeed_witness :
  reloaded_count
    (Extractor.written (Extractor.extract_unread_links utc_host scenario_directory))
  = 2.
Proof.
  apply (roundtrip_count_when_reads_succeed utc_host scenario_directory 2).
  - intros f [<- | [<- | []]]; reflexivity.
  - reflexivity.
Defined.

(* ================================================================== *)
(** ** Further properties: the groups of the batch send *)
(* ================================================================== *)

Lemma firstn_add_skipn {A} (a b : nat) (l : list A) :
  firstn (a + b) l = (firstn a l ++ firstn b (skipn a l))%list.
Proof.
  revert l. induction a as [| a IH]; intros l; [reflexivity |].
  destruct l as [| x l]; cbn [Nat.add firstn skipn app].
  - destruct b; reflexivity.
  - rewrite IH. reflexivity.
Qed.

Lemma slice_at (links : list Importer.Link) (k : nat) (batch_size : Z) :
  0 < batch_size ->
  Importer.slice links (0 + Z.of_nat k * batch_size)
                 (0 + Z.of_nat k * batch_size + batch_size)
  = firstn (Z.to_nat batch_size) (skipn (k * Z.to_nat batch_size) links).
Proof.
  intros Hb. unfold Importer.slice. f_equal; [f_equal; lia |].
  f_equal. rewrite Z.add_0_l, Z2Nat.inj_mul, Nat2Z.id by lia. reflexivity.
Qed.

Lemma concat_slices (links : list Importer.Link) (batch_size : Z) (n : nat) :
  0 < batch_size ->
  List.concat (map (fun j => Importer.slice links (0 + Z.of_nat j * batch_size)
                                       (0 + Z.of_nat j * batch_size + batch_size))
              (seq 0 n))
  = firstn (n * Z.to_nat batch_size) links.
Proof.
  intros Hb. induction n as [| n IH]; [reflexivity |].
  rewrite seq_S, map_app, List.concat_app, IH. cbn [map List.concat Nat.add].
  rewrite app_nil_r, slice_at by exact Hb.
  rewrite <- firstn_add_skipn. f_equal. lia.
Qed.

Lemma group_count_bounds (n batch_size : Z) :
  0 <= n -> 0 < batch_size ->
  let count := (n - 0 + batch_size - 1) / batch_size in
  0 <= count /\ n <= count * batch_size /\ (count - 1) * batch_size < n.
Proof.
  intros Hn Hb. cbv zeta.
  pose proof (Z.div_mod (n - 0 + batch_size - 1) batch_size ltac:(lia)) as D.
  pose proof (Z.mod_pos_bound (n - 0 + batch_size - 1) batch_size Hb) as M.
  assert (0 <= (n - 0 + batch_size - 1) / batch_size) by (apply Z.div_pos; lia).
  repeat split; [assumption | nia | nia].
Qed.

(** X14.  With a positive group size the groups of [batch_insert] are a
    partition of the records: put end to end they give the list back,
    every group has at least one record and at most [batch_size], and
    there are ceil(N / batch_size) of them. *)
Theorem groups_partition_the_records (links : list Importer.Link) (batch_size : Z) :
  0 < batch_size ->
  List.concat (groups links batch_size) = links /\
  Forall (fun batch => 1 <= Importer.len batch <= batch_size)
         (groups links batch_size) /\
  Importer.len (groups links batch_size)
  = (Importer.len links + batch_size - 1) / batch_size.
Proof.
  intros Hb. unfold groups, group_starts. rewrite map_map.
  pose proof (len_nonneg links) as N.
  destruct (group_count_bounds (Importer.len links) batch_size N Hb)
    as (C0 & Cover & Tight).
  set (count := (Importer.len links - 0 + batch_size - 1) / batch_size) in *.
  split; [| split].
  - rewrite concat_slices by exact Hb. apply firstn_all2.
    unfold Importer.len in Cover.
    assert (Z.of_nat (List.length links)
            <= Z.of_nat (Z.to_nat count * Z.to_nat batch_size)) by nia.
    lia.
  - apply Forall_map. apply Forall_forall. intros k K. apply in_seq in K.
    rewrite len_slice by nia.
    assert (Z.of_nat k * batch_size < Importer.len links) by nia.
    lia.
  - unfold Importer.len at 1. rewrite length_map, length_seq, Z2Nat.id by exact C0.
    unfold count. f_equal. lia.
Qed.

Lemma groups_partition_the_records_witness :
  List.concat (groups [link_a; link_b; link_c] 2) = [link_a; link_b; link_c] /\
  Forall (fun batch => 1 <= Importer.len batch <= 2)
         (groups [link_a; link_b; link_c] 2) /\
  Importer.len (groups [link_a; link_b; link_c] 2)
  = (Importer.len [link_a; link_b; link_c] + 2 - 1) / 2.
Proof.
  apply (groups_partition_the_records [link_a; link_b; link_c] 2). reflexivity.
Defined.

(** X15.  [batch_insert] does nothing useful with a group size that is not
    positive: with size 0 it raises [ZeroDivisionError] before any request;
    with a negative size it issues no request and returns empty counters,
    however many records it was given. *)
Theorem batch_insert_without_positive_size
        (remote : Importer.Remote) (tr : Importer.Trace)
        (links : list Importer.Link) (batch_size : Z) :
  batch_size <= 0 ->
  Importer.batch_insert remote tr links batch_size =
  if batch_size =? 0 then Py.Raise Py.ZeroDivisionError
  else Py.Ok (Importer.no_results, tr).
Proof.
  intros Hb. unfold Importer.batch_insert, Importer.range.
  destruct (Z.eqb_spec batch_size 0) as [Z0 | NZ]; [reflexivity |].
  replace (0 <? batch_size) with false by (symmetry; apply Z.ltb_ge; lia).
  cbn [Py.bind].
  pose proof (len_nonneg links) as N.
  assert ((0 - Importer.len links - batch_size - 1) / - batch_size < 1) as Small
      by (apply Z.div_lt_upper_bound; lia).
  replace (Z.to_nat ((0 - Importer.len links - batch_size - 1) / - batch_size))
    with O by lia.
  reflexivity.
Qed.

Lemma batch_insert_without_positive_size_witness :
  Importer.batch_insert accepting [] [link_a; link_b] (-50)
  = Py.Ok (Importer.no_results, []) /\
  Importer.batch_insert accepting [] [link_a; link_b] 0
  = Py.Raise Py.ZeroDivisionError.
Proof.
  split.
  - apply (batch_insert_without_positive_size accepting [] [link_a; link_b] (-50)).
    intros H. discriminate H.
  - apply (batch_insert_without_positive_size accepting [] [link_a; link_b] 0).
    intros H. discriminate H.
Defined.

(** After [k] groups of a run against a store that accepts everything. *)
Lemma accepted_run_step (remote : Importer.Remote) (links : list Importer.Link)
      (batch_size : Z) (r : Importer.Results) (tr : Importer.Trace) (i : Z) :
  always_accepts remote ->
  exists resp,
    Importer.batch_step remote links batch_size (r, tr) i =
    (Importer.mk_Results
       (Importer.success r + Importer.len (Importer.slice links i (i + batch_size)))
       (Importer.failed r) (Importer.errors r),
     (tr ++ [Importer.Post Importer.BatchPost
                           (Importer.slice links i (i + batch_size)) resp;
             Importer.Sleep 500])%list).
Proof.
  intros Acc. unfold Importer.batch_step.
  specialize (Acc tr (Importer.slice links i (i + batch_size))).
  destruct (remote tr (Importer.slice links i (i + batch_size)))
    as [code text | message]; cbn [succeeded] in Acc; [| discriminate Acc].
  rewrite Acc. exists (Importer.Status code text).
  rewrite <- app_assoc. reflexivity.
Qed.

(** X16.  Against a store that accepts every request, and with a positive
    group size, every record is counted as succeeded, none as failed, the
    error list is empty, and the requests are exactly the batched requests
    of the groups, in order. *)
Theorem accepted_run_has_no_failures
        (remote : Importer.Remote) (tr : Importer.Trace)
        (links : list Importer.Link) (batch_size : Z) :
  always_accepts remote ->
  0 < batch_size ->
  exists events,
    Importer.batch_insert remote tr links batch_size
    = Py.Ok (Importer.mk_Results (Importer.len links) 0 [], (tr ++ events)%list) /\
    requests events
    = map (fun batch => (Importer.BatchPost, batch)) (groups links batch_size).
Proof.
  intros Acc Hb. rewrite batch_insert_positive by exact Hb.
  unfold groups, group_starts. rewrite map_map.
  pose proof (len_nonneg links) as N.
  destruct (group_count_bounds (Importer.len links) batch_size N Hb)
    as (C0 & Cover & _).
  set (n := Z.to_nat ((Importer.len links - 0 + batch_size - 1) / batch_size)).
  assert (Z.of_nat n = (Importer.len links - 0 + batch_size - 1) / batch_size)
    as En by (unfold n; apply Z2Nat.id; exact C0).
  rewrite <- En in Cover.
  pose (P := fun (k : nat) (acc : Importer.Results * Importer.Trace) =>
               exists events,
                 acc = (Importer.mk_Results
                          (Z.min (Z.of_nat k * batch_size) (Importer.len links)) 0 [],
                        (tr ++ events)%list) /\
                 requests events
                 = map (fun j =>
                          (Importer.BatchPost,
                           Importer.slice links (0 + Z.of_nat j * batch_size)
                                          (0 + Z.of_nat j * batch_size + batch_size)))
                       (seq 0 k)).
  assert (P n (fold_left (Importer.batch_step remote links batch_size)
                         (map (fun k => 0 + Z.of_nat k * batch_size) (seq 0 n))
                         (Importer.no_results, tr))) as (events & E & Q).
  { apply (fold_left_seq_invariant P).
    - unfold P. exists []. rewrite app_nil_r. split; [| reflexivity].
      unfold Importer.no_results. f_equal. f_equal. lia.
    - intros k acc _ (events & -> & Q). unfold P. cbv beta.
      destruct (accepted_run_step remote links batch_size
                  (Importer.mk_Results
                     (Z.min (Z.of_nat k * batch_size) (Importer.len links)) 0 [])
                  (tr ++ events)%list (0 + Z.of_nat k * batch_size) Acc)
        as [resp S].
      exists (events ++
              [Importer.Post Importer.BatchPost
                 (Importer.slice links (0 + Z.of_nat k * batch_size)
                                 (0 + Z.of_nat k * batch_size + batch_size)) resp;
               Importer.Sleep 500])%list.
      split.
      + etransitivity; [exact S |].
        cbn [Importer.success Importer.failed Importer.errors].
        rewrite <- app_assoc. f_equal. f_equal.
        rewrite len_slice by nia. nia.
      + rewrite requests_app, Q, seq_S, map_app. reflexivity. }
  rewrite E. exists events. split; [| rewrite Q, !map_map; reflexivity].
  f_equal. f_equal. f_equal. lia.
Qed.

Lemma accepted_run_has_no_failures_witness :
  exists events,
    Importer.batch_insert accepting [] [link_a; link_b; link_c] 2
    = Py.Ok (Importer.mk_Results (Importer.len [link_a; link_b; link_c]) 0 [],
             ([] ++ events)%list) /\
    requests events
    = map (fun batch => (Importer.BatchPost, batch))
          (groups [link_a; link_b; link_c] 2).
Proof.
  apply (accepted_run_has_no_failures accepting [] [link_a; link_b; link_c] 2).
  - intros tr body. reflexivity.
  - reflexivity.
Defined.

(* ================================================================== *)
(** ** Further properties: error entries and pauses *)
(* ================================================================== *)

Lemma append_assoc_str (a b c : string) : (a ++ b) ++ c = a ++ (b ++ c).
Proof. induction a as [| x a IH]; cbn; [reflexivity | rewrite IH; reflexivity]. Qed.

Lemma names_url_of_weaken (links more : list Importer.Link) (entry : string) :
  (forall link, In link links -> In link more) ->
  names_url_of links entry -> names_url_of more entry.
Proof.
  intros Sub (link & text & I & E). exists link, text. split; [apply Sub, I | exact E].
Qed.

Lemma individual_step_entries (remote : Importer.Remote) (r : Importer.Results)
      (tr : Importer.Trace) (i : Z) (link : Importer.Link) :
  let after := fst (Importer.individual_step remote (r, tr) i link) in
  exists new,
    Importer.errors after = (Importer.errors r ++ new)%list /\
    Importer.failed after = Importer.failed r + Importer.len new /\
    Importer.success r <= Importer.success after <= Importer.success r + 1 /\
    Forall (names_url_of [link]) new.
Proof.
  cbv zeta. unfold Importer.individual_step.
  assert (forall text,
             names_url_of [link]
               (text ++ " - " ++ Importer.format_value (Importer.raw_url link)))
    as Named.
  { intros text. exists link, text. split; [left; reflexivity | reflexivity]. }
  destruct (remote tr [link]) as [code text | message].
  - destruct (Importer.accepted code).
    + destruct (Importer.raw_url link) as [u |] eqn:U.
      * exists []. cbn [fst Importer.errors Importer.failed Importer.success].
        rewrite app_nil_r. repeat split; try (cbn; lia). constructor.
      * eexists [_]. cbn [fst Importer.errors Importer.failed Importer.success].
        split; [reflexivity |]. split; [cbn; lia |]. split; [lia |].
        constructor; [| constructor].
        specialize (Named ("Individual " ++ Py.str_of_int i ++ " exception: " ++
                           "'NoneType' object is not subscriptable")).
        rewrite !append_assoc_str in Named. exact Named.
    + eexists [_]. cbn [fst Importer.errors Importer.failed Importer.success].
      split; [reflexivity |]. split; [cbn; lia |]. split; [lia |].
      constructor; [| constructor].
      specialize (Named ("Individual " ++ Py.str_of_int i ++ " failed: " ++
                         Py.str_of_int code)).
      rewrite !append_assoc_str in Named. exact Named.
  - eexists [_]. cbn [fst Importer.errors Importer.failed Importer.success].
    split; [reflexivity |]. split; [cbn; lia |]. split; [lia |].
    constructor; [| constructor].
    specialize (Named ("Individual " ++ Py.str_of_int i ++ " exception: " ++ message)).
    rewrite !append_assoc_str in Named. exact Named.
Qed.

Lemma individual_loop_entries (remote : Importer.Remote) (links : list Importer.Link) :
  forall (i : Z) (r : Importer.Results) (tr : Importer.Trace),
    let after := fst (Importer.individual_loop remote i links (r, tr)) in
    exists new,
      Importer.errors after = (Importer.errors r ++ new)%list /\
      Importer.failed after = Importer.failed r + Importer.len new /\
      Importer.success r <= Importer.success after
                         <= Importer.success r + Importer.len links /\
      Forall (names_url_of links) new.
Proof.
  induction links as [| link rest IH]; intros i r tr; cbv zeta;
    cbn [Importer.individual_loop].
  - exists []. cbn [fst]. rewrite app_nil_r.
    repeat split; try (cbn; lia). constructor.
  - destruct (individual_step_entries remote r tr i link) as (n1 & E1 & F1 & S1 & N1).
    destruct (Importer.individual_step remote (r, tr) i link) as [r1 tr1].
    destruct (IH (i + 1) r1 tr1) as (n2 & E2 & F2 & S2 & N2).
    cbn [fst] in *. exists (n1 ++ n2)%list.
    rewrite len_app, len_cons.
    split; [rewrite E2, E1, app_assoc; reflexivity |].
    split; [lia |]. split; [lia |].
    apply Forall_app. split.
    + eapply Forall_impl; [| exact N1]. intros entry.
      apply names_url_of_weaken. intros l [<- | []]. left. reflexivity.
    + eapply Forall_impl; [| exact N2]. intros entry.
      apply names_url_of_weaken. intros l I. right. exact I.
Qed.

(** X17.  Every entry of the error list of [individual_insert] ends with
    the URL of one of the records it was given, after a dash; there is one
    entry for each record counted as failed; and no more successes are
    counted than there are records. *)
Theorem individual_entries_name_the_url
        (remote : Importer.Remote) (tr : Importer.Trace) (links : list Importer.Link) :
  let results := fst (Importer.individual_insert remote tr links) in
  Forall (names_url_of links) (Importer.errors results) /\
  Importer.failed results = Importer.len (Importer.errors results) /\
  0 <= Importer.success results <= Importer.len links.
Proof.
  cbv zeta. unfold Importer.individual_insert.
  destruct (individual_loop_entries remote links 1 Importer.no_results tr)
    as (new & E & F & S & N).
  cbn [Importer.no_results Importer.errors Importer.failed Importer.success app] in *.
  rewrite E. split; [exact N |]. split; lia.
Qed.

Lemma individual_step_pauses (remote : Importer.Remote) (r : Importer.Results)
      (tr : Importer.Trace) (i : Z) (link : Importer.Link) :
  exists new,
    snd (Importer.individual_step remote (r, tr) i link) = (tr ++ new)%list /\
    sleeps 500 new = 0 /\
    (has_url link = true -> sleeps 200 new = individual_responses new).
Proof.
  unfold Importer.individual_step, has_url.
  destruct (remote tr [link]) as [code text | message].
  - destruct (Importer.accepted code).
    + destruct (Importer.raw_url link) as [u |].
      * eexists [_; _]. cbn [snd]. rewrite <- app_assoc.
        split; [reflexivity |]. split; [reflexivity |]. intros _. reflexivity.
      * eexists [_]. cbn [snd].
        split; [reflexivity |]. split; [reflexivity |]. discriminate.
    + eexists [_; _]. cbn [snd]. rewrite <- app_assoc.
      split; [reflexivity |]. split; [reflexivity |]. intros _. reflexivity.
  - eexists [_]. cbn [snd].
    split; [reflexivity |]. split; [reflexivity |]. intros _. reflexivity.
Qed.

Lemma individual_loop_pauses (remote : Importer.Remote) (links : list Importer.Link) :
  forall (i : Z) (r : Importer.Results) (tr : Importer.Trace),
  exists new,
    snd (Importer.individual_loop remote i links (r, tr)) = (tr ++ new)%list /\
    sleeps 500 new = 0 /\
    (forallb has_url links = true -> sleeps 200 new = individual_responses new).
Proof.
  induction links as [| link rest IH]; intros i r tr; cbn [Importer.individual_loop].
  - exists []. cbn [snd]. rewrite app_nil_r.
    split; [reflexivity |]. split; [reflexivity |]. intros _. reflexivity.
  - destruct (individual_step_pauses remote r tr i link) as (n1 & T1 & L1 & S1).
    destruct (Importer.individual_step remote (r, tr) i link) as [r1 tr1].
    destruct (IH (i + 1) r1 tr1) as (n2 & T2 & L2 & S2).
    cbn [snd] in *. subst tr1. exists (n1 ++ n2)%list.
    split; [rewrite T2, app_assoc; reflexivity |].
    unfold sleeps, individual_responses in *. rewrite !tally_app.
    split; [lia |]. cbn [forallb]. intros H. apply andb_prop in H.
    destruct H as [H1 H2]. rewrite (S1 H1), (S2 H2). reflexivity.
Qed.

Lemma batch_step_pauses (remote : Importer.Remote) (links : list Importer.Link)
      (batch_size : Z) (r : Importer.Results) (tr : Importer.Trace) (i : Z) :
  exists new,
    snd (Importer.batch_step remote links batch_size (r, tr) i) = (tr ++ new)%list /\
    sleeps 500 new = 1 /\
    (forallb has_url links = true -> sleeps 200 new = individual_responses new).
Proof.
  unfold Importer.batch_step.
  set (batch := Importer.slice links i (i + batch_size)).
  destruct (remote tr batch) as [code text | message].
  - destruct (Importer.accepted code).
    + eexists [_; _]. cbn [snd]. rewrite <- app_assoc.
      split; [reflexivity |]. split; [reflexivity |]. intros _. reflexivity.
    + unfold Importer.individual_insert.
      destruct (individual_loop_pauses remote batch 1 Importer.no_results
                  (tr ++ [Importer.Post Importer.BatchPost batch
                                        (Importer.Status code text)])%list)
        as (n & T & L & S).
      destruct (Importer.individual_loop remote 1 batch _) as [ind tr2].
      cbn [snd] in *. subst tr2.
      exists ([Importer.Post Importer.BatchPost batch (Importer.Status code text)]
              ++ n ++ [Importer.Sleep 500])%list.
      split; [rewrite <- !app_assoc; reflexivity |].
      unfold sleeps, individual_responses in *. rewrite !tally_app.
      split; [rewrite L; reflexivity |].
      intros H. rewrite (S (forallb_slice has_url links i (i + batch_size) H)).
      reflexivity.
  - eexists [_; _]. cbn [snd]. rewrite <- app_assoc.
    split; [reflexivity |]. split; [reflexivity |]. intros _. reflexivity.
Qed.

(** X18.  A run of [batch_insert] with a positive group size pauses half a
    second once per group; and when every record has its URL it pauses a
    fifth of a second after every individual request that was answered,
    and after no other. *)
Theorem pauses_of_a_run
        (remote : Importer.Remote) (tr : Importer.Trace)
        (links : list Importer.Link) (batch_size : Z) :
  0 < batch_size ->
  exists results events,
    Importer.batch_insert remote tr links batch_size
    = Py.Ok (results, (tr ++ events)%list) /\
    sleeps 500 events = Importer.len (groups links batch_size) /\
    (forallb has_url links = true ->
     sleeps 200 events = individual_responses events).
Proof.
  intros Hb. rewrite batch_insert_positive by exact Hb.
  assert (Importer.len (groups links batch_size)
          = Z.of_nat (List.length (group_starts (Importer.len links) batch_size)))
    as G by (unfold groups, Importer.len; rewrite length_map; reflexivity).
  rewrite G. unfold group_starts. rewrite length_map, length_seq.
  set (n := Z.to_nat ((Importer.len links - 0 + batch_size - 1) / batch_size)).
  pose (P := fun (k : nat) (acc : Importer.Results * Importer.Trace) =>
               exists events,
                 snd acc = (tr ++ events)%list /\
                 sleeps 500 events = Z.of_nat k /\
                 (forallb has_url links = true ->
                  sleeps 200 events = individual_responses events)).
  assert (P n (fold_left (Importer.batch_step remote links batch_size)
                         (map (fun k => 0 + Z.of_nat k * batch_size) (seq 0 n))
                         (Importer.no_results, tr))) as (events & T & L & S).
  { apply (fold_left_seq_invariant P).
    - unfold P. exists []. cbn [snd]. rewrite app_nil_r.
      split; [reflexivity |]. split; [reflexivity |]. intros _. reflexivity.
    - intros k [r tr1] _ (events & T & L & S). unfold P. cbn [snd] in T. subst tr1.
      destruct (batch_step_pauses remote links batch_size r (tr ++ events)%list
                  (0 + Z.of_nat k * batch_size)) as (new & T' & L' & S').
      exists (events ++ new)%list.
      split; [rewrite T', app_assoc; reflexivity |].
      unfold sleeps, individual_responses in *. rewrite !tally_app.
      split; [lia |]. intros H. rewrite (S H), (S' H). reflexivity. }
  destruct (fold_left _ _ _) as [results tr']. cbn [snd] in T. subst tr'.
  exists results, events. split; [reflexivity |]. split; [exact L | exact S].
Qed.

Lemma pauses_of_a_run_witness :
  exists results events,
    Importer.batch_insert picky [] [link_a; link_b; link_c] 2
    = Py.Ok (results, ([] ++ events)%list) /\
    sleeps 500 events = Importer.len (groups [link_a; link_b; link_c] 2) /\
    sleeps 200 events = individual_responses events.
Proof.
  destruct (pauses_of_a_run picky [] [link_a; link_b; link_c] 2 eq_refl)
    as (results & events & E & L & S).
  exists results, events. split; [exact E |]. split; [exact L |].
  apply S. reflexivity.
Defined.

(* ================================================================== *)
(** ** Further properties: the report and the whole run *)
(* ================================================================== *)

Lemma shown_error_lines (entries : list string) :
  Report.shown (map Report.ErrorLine entries) = entries.
Proof.
  induction entries as [| e es IH]; cbn; [reflexivity | f_equal; exact IH].
Qed.

Lemma remainder_error_lines (entries : list string) :
  Report.remainder (map Report.ErrorLine entries) = 0.
Proof. induction entries as [| e es IH]; cbn; [reflexivity | exact IH]. Qed.

Lemma remainder_app (a b : list Report.Line) :
  Report.remainder (a ++ b)%list = Report.remainder a + Report.remainder b.
Proof.
  unfold Report.remainder. induction a as [| l a IH]; cbn [app fold_right];
    [reflexivity |].
  destruct l; rewrite IH; lia.
Qed.

(** X19.  The report shows the first ten entries of the error list, in
    order, and the count it gives for the remaining ones is exactly the
    number of entries not shown; with an empty error list it has no error
    lines at all. *)
Theorem report_shows_first_ten_entries (results : Importer.Results) :
  let lines := Report.report results in
  Report.shown lines = firstn 10 (Importer.errors results) /\
  Importer.len (Report.shown lines) + Report.remainder lines
  = Importer.len (Importer.errors results) /\
  (Importer.errors results = [] ->
   lines = ([Report.SuccessfullyImported (Importer.success results);
             Report.FailedImports (Importer.failed results)] ++
            (if 0 <? Importer.success results
             then [Report.ImportCompleted (Importer.success results)] else []))%list).
Proof.
  cbv zeta. unfold Report.report, Report.error_lines.
  destruct (Importer.errors results) as [| e es] eqn:E.
  - split; [| split].
    + destruct (0 <? Importer.success results); reflexivity.
    + destruct (0 <? Importer.success results); reflexivity.
    + intros _. reflexivity.
  - assert (Report.shown
              ([Report.SuccessfullyImported (Importer.success results);
                Report.FailedImports (Importer.failed results)] ++
               (Report.ErrorSummary (Importer.len (e :: es))
                :: map Report.ErrorLine (firstn 10 (e :: es)) ++
                   (if 10 <? Importer.len (e :: es)
                    then [Report.MoreErrors (Importer.len (e :: es) - 10)]
                    else [])) ++
               (if 0 <? Importer.success results
                then [Report.ImportCompleted (Importer.success results)]
                else []))%list
            = firstn 10 (e :: es)) as S.
    { unfold Report.shown. cbn [app flat_map]. rewrite !flat_map_app.
      fold (Report.shown (map Report.ErrorLine (firstn 10 (e :: es)))).
      rewrite shown_error_lines.
      destruct (10 <? Importer.len (e :: es)), (0 <? Importer.success results);
        cbn [flat_map app]; rewrite ?app_nil_r; reflexivity. }
    split; [exact S |]. split; [| discriminate].
    rewrite S. cbn [app]. 
    change (Report.remainder
              (Report.SuccessfullyImported (Importer.success results)
               :: Report.FailedImports (Importer.failed results)
               :: Report.ErrorSummary (Importer.len (e :: es))
               :: (map Report.ErrorLine (firstn 10 (e :: es)) ++
                   (if 10 <? Importer.len (e :: es)
                    then [Report.MoreErrors (Importer.len (e :: es) - 10)]
                    else [])) ++
                  (if 0 <? Importer.success results
                   then [Report.ImportCompleted (Importer.success results)]
                   else []))%list)
      with (Report.remainder
              ((map Report.ErrorLine (firstn 10 (e :: es)) ++
                (if 10 <? Importer.len (e :: es)
                 then [Report.MoreErrors (Importer.len (e :: es) - 10)]
                 else [])) ++
               (if 0 <? Importer.success results
                then [Report.ImportCompleted (Importer.success results)]
                else []))%list).
    rewrite !remainder_app, remainder_error_lines.
    unfold Importer.len. rewrite length_firstn.
    destruct (Z.ltb_spec 10 (Z.of_nat (List.length (e :: es)))) as [More | Few];
      destruct (0 <? Importer.success results); cbn [Report.remainder fold_right];
      lia.
Qed.






